(** * BlinkStickGo: the controller of [blinkstick.go], embedded in Rocq.

    The Go package drives a BlinkStick USB LED device through vendor
    control transfers.  The embedding follows the source function by function:

    - a Go [byte] is a [Byte.byte], a [[]byte] or a [string] a [list byte];
    - [uint16]/[uint32] values are [Z] with their wrap-around written out;
    - a Go [int] is a [Z] in two's complement on [int_bits] bits (32 or 64,
      as the target decides); only [GetLEDData] computes with it;
    - the USB device is an oracle that answers a control transfer from the
      transfers seen so far; every call to [gousb.Device.Control] is logged;
    - a method with receiver [stk *BlinkStick] is a computation of the monad
      [Go], which threads the struct, the transfer log and the position in
      the random source, and which can end in a run-time panic. *)

From Stdlib Require Import ZArith List Bool Lia Strings.Byte.
Import ListNotations.
Local Open Scope Z_scope.

(** ** Machine integers *)

Definition byte_to_Z (b : byte) : Z := Z.of_N (Byte.to_N b).

(** Conversion [byte(x)] of an integer: the low eight bits. *)
Definition byte_of_Z (z : Z) : byte :=
  match Byte.of_N (Z.to_N (z mod 256)) with
  | Some b => b
  | None => x00
  end.

Definition uint16 (z : Z) : Z := z mod 2 ^ 16.
Definition uint32 (z : Z) : Z := z mod 2 ^ 32.

(** Two's complement on [bits] bits: what a Go [int] holds after an
    arithmetic operation. *)
Definition int_wrap (bits z : Z) : Z :=
  (z + 2 ^ (bits - 1)) mod 2 ^ bits - 2 ^ (bits - 1).

(** [255 - b] on the type [byte]. *)
Definition byte_complement (b : byte) : byte := byte_of_Z (255 - byte_to_Z b).

(** ** The USB collaborator *)

(** The error values of the transport ([gousb] wraps libusb's codes). *)
Inductive error : Type :=
| UsbError (code : Z).

(** One call of [gousb.Device.Control(rType, request, val, idx, data)], with
    the contents of [data] at the time of the call. *)
Record Transfer : Type := mkTransfer {
  requestType : Z;
  request : Z;
  value : Z;
  index : Z;
  data : list byte
}.

(** What the transport answers: the number of bytes transferred, the error
    (if any) and the bytes it stored into the caller's buffer. *)
Record Response : Type := mkResponse {
  resp_len : Z;
  resp_err : option error;
  resp_written : list byte
}.

(** A device answers a transfer from the transfers issued before it (oldest
    first). *)
Definition Device : Type := list Transfer -> Transfer -> Response.

(** The caller's slice after the transport stored [written] into it: a slice
    never changes length. *)
Definition fill (buf written : list byte) : list byte :=
  firstn (length buf) written ++ skipn (length written) buf.

(** ** The struct and the state of a run *)

Record BlinkStick : Type := mkBlinkStick {
  device : Device;
  Serial : list byte;
  Inverse : bool;
  RGB : bool;
  ledCount : Z
}.

Definition set_ledCount (stk : BlinkStick) (n : Z) : BlinkStick :=
  mkBlinkStick (device stk) (Serial stk) (Inverse stk) (RGB stk) n.

Record Machine : Type := mkMachine {
  stick : BlinkStick;
  log : list Transfer;
  rand_src : nat -> Z;
  rand_pos : nat
}.

Definition with_stick (m : Machine) (stk : BlinkStick) : Machine :=
  mkMachine stk (log m) (rand_src m) (rand_pos m).

Inductive outcome (A : Type) : Type :=
| Returns (a : A)
| Panics.
Arguments Returns {A} a.
Arguments Panics {A}.

Definition Go (A : Type) : Type := Machine -> outcome A * Machine.

Definition ret {A} (a : A) : Go A := fun m => (Returns a, m).

Definition bind {A B} (c : Go A) (k : A -> Go B) : Go B :=
  fun m =>
    match c m with
    | (Returns a, m') => k a m'
    | (Panics, m') => (Panics, m')
    end.

Definition panic {A} : Go A := fun m => (Panics, m).

Notation "x <- c ;; k" := (bind c (fun x => k))
  (at level 61, c at next level, right associativity).
Notation "' pat <- c ;; k" := (bind c (fun x => let 'pat := x in k))
  (at level 61, pat pattern, c at next level, right associativity).

Definition get_stick : Go BlinkStick := fun m => (Returns (stick m), m).

Definition put_ledCount (n : Z) : Go unit :=
  fun m => (Returns tt, with_stick m (set_ledCount (stick m) n)).

(** [stk.device.Control(...)]: the device answers, the call is logged, and
    the caller gets the count, the error and its buffer as the transport
    left it. *)
Definition device_Control (rType req val idx : Z) (buf : list byte)
  : Go (Z * option error * list byte) :=
  fun m =>
    let t := mkTransfer rType req val idx buf in
    let r := device (stick m) (log m) t in
    (Returns (resp_len r, resp_err r, fill buf (resp_written r)),
     mkMachine (stick m) (log m ++ [t]) (rand_src m) (rand_pos m)).

(** [rand.Uint32()]. *)
Definition rand_Uint32 : Go Z :=
  fun m =>
    (Returns (uint32 (rand_src m (rand_pos m))),
     mkMachine (stick m) (log m) (rand_src m) (S (rand_pos m))).

(** ** Slices *)

(** [make([]byte, n)]. *)
Definition make_bytes (n : Z) : list byte := repeat x00 (Z.to_nat n).

Definition len (s : list byte) : Z := Z.of_nat (length s).

(** [s[lo:hi]] on a slice whose capacity is its length (as [make] gives):
    a run-time panic unless [0 <= lo <= hi <= cap(s)]. *)
Definition slice (s : list byte) (lo hi : Z) : Go (list byte) :=
  if (0 <=? lo) && (lo <=? hi) && (hi <=? len s)
  then ret (firstn (Z.to_nat (hi - lo)) (skipn (Z.to_nat lo) s))
  else panic.

(** [bytes.Repeat(b, count)]; it panics on a negative count. *)
Definition bytes_Repeat (b : list byte) (count : Z) : Go (list byte) :=
  if count <? 0 then panic
  else ret (concat (repeat b (Z.to_nat count))).

Notation "c ;; k" := (bind c (fun _ => k))
  (at level 61, right associativity).

Definition is_error (err : option error) : bool :=
  match err with
  | Some _ => true
  | None => false
  end.

(** ** The methods of [BlinkStick] *)

(** [getReportID]: the report id and the LED capacity for a byte count.
    The receiver is not used.  The fourth case falls through to the
    default. *)
Definition getReportID (count : Z) : Z * Z :=
  if count <=? 8 * 3 then (6, 8)
  else if count <=? 16 * 3 then (7, 16)
  else if count <=? 32 * 3 then (8, 32)
  else if count <=? 64 * 3 then (9, 64)
  else (9, 64).

(** [control]: the wrapper that drops the byte count.  The buffer is the
    caller's slice, filled in place; the model hands it back. *)
Definition control (rType req val idx : Z) (buf : list byte)
  : Go (option error * list byte) :=
  '(_, err, buf') <- device_Control rType req val idx buf ;;
  ret (err, buf').

(** [GetLEDCount]: the inner block either returns early with [-1] or falls
    out to [return stk.ledCount]. *)
Definition GetLEDCount : Go Z :=
  stk <- get_stick ;;
  early <-
    (if ledCount stk =? 0 then
       let buffer := make_bytes 2 in
       '(responseLen, err, buffer) <-
          device_Control (Z.lor 0x80 0x20) 0x01 0x81 0x00 buffer ;;
       if is_error err || (responseLen <? 2) then ret (Some (-1))
       else
         put_ledCount (byte_to_Z (nth 1 buffer x00)) ;;
         ret None
     else ret None) ;;
  match early with
  | Some v => ret v
  | None => stk <- get_stick ;; ret (ledCount stk)
  end.

Definition GetName : Go (list byte) :=
  let buffer := make_bytes 33 in
  '(err, buffer) <- control (Z.lor 0x80 0x20) 0x01 0x02 0x00 buffer ;;
  if is_error err then ret []
  else
    let buffer := buffer ++ [x00] in
    ret buffer.

Definition GetInfo : Go (list byte) :=
  let buffer := make_bytes 33 in
  '(err, buffer) <- control (Z.lor 0x80 0x20) 0x01 0x03 0x00 buffer ;;
  if is_error err then ret []
  else
    let buffer := buffer ++ [x00] in
    ret buffer.

Definition SetName (name : list byte) : Go (option error) :=
  '(err, _) <- control 0x20 0x09 0x02 0x00 name ;;
  ret err.

Definition SetInfo (info : list byte) : Go (option error) :=
  '(err, _) <- control 0x20 0x09 0x03 0x00 info ;;
  ret err.

Definition SetRGB (channel index r g b : byte) : Go (option error) :=
  stk <- get_stick ;;
  let '(r, g, b) :=
    if Inverse stk
    then (byte_complement r, byte_complement g, byte_complement b)
    else (r, g, b) in
  if Byte.eqb index x00 && Byte.eqb channel x00 then
    '(err, _) <- control 0x20 0x09 0x01 0x00 [x00; r; g; b] ;;
    ret err
  else
    '(err, _) <- control 0x20 0x09 0x01 0x00 [x00; r; g; b] ;;
    ret err.

Definition SetRandom (channel index : byte) : Go (option error) :=
  rColor <- rand_Uint32 ;;
  SetRGB channel index
    (byte_of_Z (Z.shiftr rColor 24))
    (byte_of_Z (Z.shiftr rColor 16))
    (byte_of_Z (Z.shiftr rColor 8)).

(** The loop of [SetLEDData]: [i] runs over [0 .. maxLEDs*3 - 1]; the bound
    is a [uint16] of at most 192, so [uint16(i)] is [i] throughout. *)
Definition report_step (data : list byte) (report : list byte) (i : nat)
  : list byte :=
  if len data >? Z.of_nat i
  then report ++ [nth i data x00]
  else report ++ [x00].

Definition SetLEDData (channel : byte) (data : list byte)
  : Go (option error) :=
  let '(reportID, maxLEDs) := getReportID (len data) in
  let report := [x00; channel] in
  let report :=
    fold_left (report_step data)
      (seq 0 (Z.to_nat (uint16 (maxLEDs * 3)))) report in
  '(err, _) <- control 0x20 0x09 reportID 0x00 report ;;
  ret err.

Definition SetAllRGB (channel r g b : byte) : Go (option error) :=
  count <- GetLEDCount ;;
  if count <? 0 then SetRGB channel x00 r g b
  else
    data <- bytes_Repeat [r; g; b] count ;;
    SetLEDData channel data.

Section IntWidth.

(** The width of [int] on the target: 32 or 64. *)
Variable int_bits : Z.

Definition int_mul (a b : Z) : Z := int_wrap int_bits (a * b).
Definition int_add (a b : Z) : Z := int_wrap int_bits (a + b).

(** [GetLEDData]: the transfer is issued before the slice expression is
    evaluated, so a panic there comes after the transfer. *)
Definition GetLEDData (count : Z) : Go (list byte * option error) :=
  let '(reportID, maxLEDs) := getReportID (int_mul count 3) in
  let buffer := make_bytes (uint16 (2 + uint16 (maxLEDs * 3))) in
  '(err, buffer) <- control (Z.lor 0x80 0x20) 0x01 reportID 0x00 buffer ;;
  res <- slice buffer 2 (int_add 2 (int_mul count 3)) ;;
  ret (res, err).

End IntWidth.

(** The calls a client can make, and the machine after one call or after a
    sequence of calls (a panic is taken to be recovered by the caller). *)
Inductive Op : Type :=
| CallGetLEDCount
| CallGetName
| CallGetInfo
| CallSetName (name : list byte)
| CallSetInfo (info : list byte)
| CallSetRGB (channel index r g b : byte)
| CallSetRandom (channel index : byte)
| CallSetAllRGB (channel r g b : byte)
| CallGetLEDData (count : Z)
| CallSetLEDData (channel : byte) (data : list byte).

Definition run_op (int_bits : Z) (op : Op) (m : Machine) : Machine :=
  match op with
  | CallGetLEDCount => snd (GetLEDCount m)
  | CallGetName => snd (GetName m)
  | CallGetInfo => snd (GetInfo m)
  | CallSetName name => snd (SetName name m)
  | CallSetInfo info => snd (SetInfo info m)
  | CallSetRGB channel index r g b => snd (SetRGB channel index r g b m)
  | CallSetRandom channel index => snd (SetRandom channel index m)
  | CallSetAllRGB channel r g b => snd (SetAllRGB channel r g b m)
  | CallGetLEDData count => snd (GetLEDData int_bits count m)
  | CallSetLEDData channel data => snd (SetLEDData channel data m)
  end.

Definition run_ops (int_bits : Z) (ops : list Op) (m : Machine) : Machine :=
  fold_left (fun m op => run_op int_bits op m) ops m.

(** The struct [FindAll] builds for a discovered device. *)
Definition new_stick (dev : Device) (serial : list byte) : BlinkStick :=
  mkBlinkStick dev serial false false 0.

Definition start (dev : Device) (serial : list byte) (rnd : nat -> Z)
  : Machine :=
  mkMachine (new_stick dev serial) [] rnd 0.

(** The machine after one more logged transfer. *)
Definition logged (m : Machine) (t : Transfer) : Machine :=
  mkMachine (stick m) (log m ++ [t]) (rand_src m) (rand_pos m).

(** The device's answer to [t] in machine [m]. *)
Definition answer (m : Machine) (t : Transfer) : Response :=
  device (stick m) (log m) t.

(** The colour bytes [SetRGB] puts on the wire. *)
Definition wire_colour (stk : BlinkStick) (c : byte) : byte :=
  if Inverse stk then byte_complement c else c.

(** The transfers of the wire protocol. *)
Definition count_transfer : Transfer :=
  mkTransfer 0xA0 0x01 0x81 0x00 [x00; x00].
Definition name_transfer : Transfer :=
  mkTransfer 0xA0 0x01 0x02 0x00 (repeat x00 33).
Definition info_transfer : Transfer :=
  mkTransfer 0xA0 0x01 0x03 0x00 (repeat x00 33).
Definition rgb_transfer (r g b : byte) : Transfer :=
  mkTransfer 0x20 0x09 0x01 0x00 [x00; r; g; b].

(** The payload [SetLEDData] builds for a capacity of [cap] bytes. *)
Definition led_report (channel : byte) (data : list byte) (cap : nat)
  : list byte :=
  [x00; channel] ++ firstn cap data ++ repeat x00 (cap - length data).

Definition led_transfer (channel : byte) (data : list byte) : Transfer :=
  let '(reportID, maxLEDs) := getReportID (len data) in
  mkTransfer 0x20 0x09 reportID 0x00
    (led_report channel data (Z.to_nat (maxLEDs * 3))).

(** The state [ledCount] can be in: unset, or a byte read from the device. *)
Definition stick_ok (stk : BlinkStick) : Prop := 0 <= ledCount stk <= 255.

(** The count [GetLEDCount] reads from the device's answer: the second byte
    of the two-byte buffer. *)
Definition read_count (m : Machine) : Z :=
  byte_to_Z
    (nth 1 (fill [x00; x00] (resp_written (answer m count_transfer))) x00).

(** The response buffer of [GetLEDData] for a byte count. *)
Definition data_transfer (c3 : Z) : Transfer :=
  let '(reportID, maxLEDs) := getReportID c3 in
  mkTransfer 0xA0 0x01 reportID 0x00
    (repeat x00 (Z.to_nat (2 + maxLEDs * 3))).

(** The buffer [GetLEDData] slices: the response buffer as the transport
    left it. *)
Definition data_buffer (m : Machine) (c3 : Z) : list byte :=
  fill (data (data_transfer c3))
    (resp_written (answer m (data_transfer c3))).

(** [count] repetitions of the triple [(r, g, b)]. *)
Definition triples (r g b : byte) (count : nat) : list byte :=
  concat (repeat [r; g; b] count).

(** The length of the framed LED buffer of a report id. *)
Definition frame_length (reportID : Z) : nat :=
  if reportID =? 6 then 26
  else if reportID =? 7 then 50
  else if reportID =? 8 then 98
  else 194.

(** The rows of the wire-protocol table, as a test on a logged transfer. *)
Definition row_get_count (t : Transfer) : bool :=
  (requestType t =? 0xA0) && (request t =? 0x01) && (value t =? 0x81)
  && (length (data t) =? 2)%nat.

Definition row_get_text (t : Transfer) : bool :=
  (requestType t =? 0xA0) && (request t =? 0x01)
  && ((value t =? 0x02) || (value t =? 0x03))
  && (length (data t) =? 33)%nat.

Definition row_set_text (t : Transfer) : bool :=
  (requestType t =? 0x20) && (request t =? 0x09)
  && ((value t =? 0x02) || (value t =? 0x03)).

Definition row_set_rgb (t : Transfer) : bool :=
  (requestType t =? 0x20) && (request t =? 0x09) && (value t =? 0x01)
  && match data t with
     | [z; _; _; _] => Byte.eqb z x00
     | _ => false
     end.

Definition row_led_data (t : Transfer) : bool :=
  (((requestType t =? 0xA0) && (request t =? 0x01))
   || ((requestType t =? 0x20) && (request t =? 0x09)))
  && (6 <=? value t) && (value t <=? 9)
  && (length (data t) =? frame_length (value t))%nat.

Definition table_row (t : Transfer) : bool :=
  (index t =? 0x00)
  && (row_get_count t || row_get_text t || row_set_text t || row_set_rgb t
      || row_led_data t).

(** What a call leaves alone: [m'] is [m] after the transfers [new], all of
    them rows of the table; the device and the colour mode are the same, a
    set LED count stays, and the count stays a byte. *)
Definition frame (m m' : Machine) (new : list Transfer) : Prop :=
  log m' = log m ++ new
  /\ forallb table_row new = true
  /\ device (stick m') = device (stick m)
  /\ Inverse (stick m') = Inverse (stick m)
  /\ (ledCount (stick m) <> 0 -> stick m' = stick m)
  /\ (stick_ok (stick m) -> stick_ok (stick m')).

(** ** Discovery: [FindAll] and [filterBlinkStick] *)

(** The fields of [gousb.DeviceDesc] the package reads. *)
Record DeviceDesc : Type := mkDeviceDesc {
  Vendor : Z;
  Product : Z
}.

Definition vendorID : Z := 0x20A0.
Definition productID : Z := 0x41E5.

Definition filterBlinkStick (desc : DeviceDesc) : bool :=
  (Vendor desc =? vendorID) && (Product desc =? productID).

(** An opened [*gousb.Device]: how it answers control transfers, and what
    its [SerialNumber()] returns. *)
Record UsbDevice : Type := mkUsbDevice {
  usb_Control : Device;
  usb_SerialNumber : list byte * option error
}.

(** The USB context, seen through [ctx.OpenDevices(opener)]: the devices it
    opened and the error it reports. *)
Definition Context : Type :=
  (DeviceDesc -> bool) -> list UsbDevice * option error.

(** One round of the loop of [FindAll]; the second component collects what
    is printed on standard error. *)
Definition FindAll_step (acc : list BlinkStick * list error)
  (usbdev : UsbDevice) : list BlinkStick * list error :=
  let '(blinksticks, stderr) := acc in
  let '(serial, err) := usb_SerialNumber usbdev in
  let stderr :=
    match err with
    | Some e => stderr ++ [e]
    | None => stderr
    end in
  (blinksticks ++ [mkBlinkStick (usb_Control usbdev) serial false false 0],
   stderr).

(** [FindAll]: the sticks, the error, and the errors printed on standard
    error. *)
Definition FindAll (ctx : Context)
  : list BlinkStick * option error * list error :=
  let blinksticks := [] in
  let '(devices, err) := ctx filterBlinkStick in
  if is_error err then (blinksticks, err, [])
  else
    let '(blinksticks, stderr) :=
      fold_left FindAll_step devices (blinksticks, []) in
    (blinksticks, None, stderr).

(** A context that enumerates the attached devices in order and opens every
    one the opener accepts, without error. *)
Definition bus_context (bus : list (DeviceDesc * UsbDevice)) : Context :=
  fun opener =>
    (map snd (filter (fun entry => opener (fst entry)) bus), None).

(** The stick [FindAll] makes of an opened device, and what it prints for
    it. *)
Definition stick_of (usbdev : UsbDevice) : BlinkStick :=
  mkBlinkStick (usb_Control usbdev) (fst (usb_SerialNumber usbdev))
    false false 0.

Definition serial_errors (usbdev : UsbDevice) : list error :=
  match snd (usb_SerialNumber usbdev) with
  | Some e => [e]
  | None => []
  end.

(** Whether a call ends in a run-time panic. *)
Definition panicked {A : Type} (o : outcome A) : bool :=
  match o with
  | Panics => true
  | Returns _ => false
  end.

Definition op_panics (int_bits : Z) (op : Op) (m : Machine) : bool :=
  match op with
  | CallGetLEDCount => panicked (fst (GetLEDCount m))
  | CallGetName => panicked (fst (GetName m))
  | CallGetInfo => panicked (fst (GetInfo m))
  | CallSetName name => panicked (fst (SetName name m))
  | CallSetInfo info => panicked (fst (SetInfo info m))
  | CallSetRGB channel index r g b =>
      panicked (fst (SetRGB channel index r g b m))
  | CallSetRandom channel index => panicked (fst (SetRandom channel index m))
  | CallSetAllRGB channel r g b => panicked (fst (SetAllRGB channel r g b m))
  | CallGetLEDData count => panicked (fst (GetLEDData int_bits count m))
  | CallSetLEDData channel data => panicked (fst (SetLEDData channel data m))
  end.

(** ** The test file *)

(** The body of the loop of [ExampleBlinkStick], for one stick;
    [panic(err)] ends the run. *)
Definition ExampleBlinkStick_body : Go unit :=
  count <- GetLEDCount ;;
  if count <? 1 then
    err <- SetRGB x00 x00 xff xff xff ;;
    if is_error err then panic else ret tt
  else
    err <- SetAllRGB x00 xff xff xff ;;
    if is_error err then panic else ret tt.

(** The body of the loop of [TestSetRGB], for one stick: the result tells
    whether [t.Fail()] was called.  The error of [GetLEDData] is assigned
    and not looked at. *)
Definition TestSetRGB_body (int_bits : Z) : Go bool :=
  err <- SetRGB x00 x00 xff xff xff ;;
  if is_error err then panic
  else
    '(recvData, _) <- GetLEDData int_bits 1 ;;
    ret (fold_left
           (fun failed chunk =>
              if byte_to_Z chunk <? 252 then true else failed)
           recvData false).

(** ** Devices and machines to evaluate the code on *)

(** A device that accepts every transfer and stores nothing. *)
Definition quiet_device : Device :=
  fun _ t => mkResponse (len (data t)) None [].

(** A transport on which every transfer fails. *)
Definition failing_device : Device :=
  fun _ _ => mkResponse 0 (Some (UsbError (-1))) [].

(** A device with [n] LEDs: it answers the count query with [[0, n]]. *)
Definition counting_device (n : byte) : Device :=
  fun _ t =>
    if value t =? 0x81 then mkResponse 2 None [x00; n]
    else mkResponse (len (data t)) None [].


(** A device that does not answer the count query and accepts everything
    else. *)
Definition countless_device : Device :=
  fun _ t =>
    if value t =? 0x81 then mkResponse 0 (Some (UsbError (-9))) []
    else mkResponse (len (data t)) None [].

Definition no_rand : nat -> Z := fun _ => 0.

Definition quiet_machine : Machine := start quiet_device [] no_rand.
Definition failing_machine : Machine := start failing_device [] no_rand.
Definition five_led_machine : Machine :=
  start (counting_device x05) [] no_rand.

Definition countless_machine : Machine :=
  start countless_device [] no_rand.

(** A one-LED stick whose colours are inverted. *)
Definition inverse_machine : Machine :=
  mkMachine (mkBlinkStick (counting_device x01) [] true false 0) []
    no_rand 0.

(** Counts above 64 whose triple wraps around to [2]: on 64 bits and on 32
    bits. *)
Definition wrapping_count : Z := 6148914691236517206.
Definition wrapping_count32 : Z := 1431655766.

(** The data of the last frame written under a report id. *)
Definition last_report (history : list Transfer) (reportID : Z)
  : option (list byte) :=
  fold_left
    (fun found t =>
       if (requestType t =? 0x20) && (value t =? reportID)
       then Some (data t) else found)
    history None.

(** A device that answers a read of a report with the last frame written
    under that report id. *)
Definition echo_device : Device :=
  fun history t =>
    if requestType t =? 0xA0 then
      match last_report history (value t) with
      | Some frame => mkResponse (len frame) None frame
      | None => mkResponse 0 None []
      end
    else mkResponse (len (data t)) None [].

Definition echo_machine : Machine := start echo_device [] no_rand.

(** A bus with a keyboard, a BlinkStick whose serial number cannot be read,
    and a second BlinkStick. *)
Definition sample_bus : list (DeviceDesc * UsbDevice) :=
  [(mkDeviceDesc 0x046D 0xC31C, mkUsbDevice quiet_device ([x4b], None));
   (mkDeviceDesc 0x20A0 0x41E5,
    mkUsbDevice (counting_device x08) ([], Some (UsbError (-4))));
   (mkDeviceDesc 0x20A0 0x41E5,
    mkUsbDevice countless_device ([x42; x53], None))].

(** A context whose enumeration fails after a device was opened. *)
Definition broken_context : Context :=
  fun _ => ([mkUsbDevice quiet_device ([], None)], Some (UsbError (-99))).

(** ** Bytes and machine integers *)

Lemma byte_to_Z_range (b : byte) : 0 <= byte_to_Z b < 256.
Proof.
  unfold byte_to_Z. pose proof (Byte.to_N_bounded b) as H.
  lia.
Qed.

Lemma byte_to_of_Z (z : Z) : byte_to_Z (byte_of_Z z) = z mod 256.
Proof.
  unfold byte_to_Z, byte_of_Z.
  assert (Hr : 0 <= z mod 256 < 256) by (apply Z.mod_pos_bound; lia).
  destruct (Byte.of_N (Z.to_N (z mod 256))) as [b|] eqn:E.
  - apply Byte.to_of_N in E. rewrite E. lia.
  - apply Byte.of_N_None_iff in E. lia.
Qed.

Lemma byte_of_to_Z (b : byte) : byte_of_Z (byte_to_Z b) = b.
Proof.
  unfold byte_of_Z, byte_to_Z.
  pose proof (Byte.to_N_bounded b) as H.
  rewrite Z.mod_small by lia. rewrite N2Z.id.
  now rewrite Byte.of_to_N.
Qed.

Lemma byte_to_Z_inj (a b : byte) : byte_to_Z a = byte_to_Z b -> a = b.
Proof.
  intros H. rewrite <- (byte_of_to_Z a), <- (byte_of_to_Z b). now rewrite H.
Qed.

Lemma byte_complement_spec (b : byte) :
  byte_to_Z (byte_complement b) = 255 - byte_to_Z b.
Proof.
  unfold byte_complement. rewrite byte_to_of_Z.
  pose proof (byte_to_Z_range b). apply Z.mod_small. lia.
Qed.

Lemma byte_complement_involutive (b : byte) :
  byte_complement (byte_complement b) = b.
Proof.
  apply byte_to_Z_inj. rewrite !byte_complement_spec. lia.
Qed.

Lemma fill_length (buf written : list byte) :
  length (fill buf written) = length buf.
Proof.
  unfold fill. rewrite length_app, length_firstn, length_skipn. lia.
Qed.


(** ** What one call does: the run equations *)

Lemma control_run (rType req val idx : Z) (buf : list byte) (m : Machine) :
  control rType req val idx buf m =
    (Returns (resp_err (answer m (mkTransfer rType req val idx buf)),
              fill buf (resp_written
                          (answer m (mkTransfer rType req val idx buf)))),
     logged m (mkTransfer rType req val idx buf)).
Proof. reflexivity. Qed.

Lemma GetLEDCount_cached (m : Machine) :
  ledCount (stick m) <> 0 ->
  GetLEDCount m = (Returns (ledCount (stick m)), m).
Proof.
  intros H. unfold GetLEDCount, bind, get_stick, ret.
  apply Z.eqb_neq in H. now rewrite H.
Qed.

Lemma GetLEDCount_query (m : Machine) :
  ledCount (stick m) = 0 ->
  GetLEDCount m =
    if is_error (resp_err (answer m count_transfer))
       || (resp_len (answer m count_transfer) <? 2)
    then (Returns (-1), logged m count_transfer)
    else (Returns (read_count m),
          with_stick (logged m count_transfer)
            (set_ledCount (stick m) (read_count m))).
Proof.
  intros H. unfold GetLEDCount, bind, get_stick, ret.
  rewrite H. cbn -[fill nth].
  change (device (stick m) (log m) _) with (answer m count_transfer).
  destruct (is_error _ || _); reflexivity.
Qed.

Lemma read_count_range (m : Machine) : 0 <= read_count m <= 255.
Proof. unfold read_count. pose proof (byte_to_Z_range (nth 1 (fill [x00; x00] (resp_written (answer m count_transfer))) x00)). lia. Qed.

Lemma GetName_run (m : Machine) :
  GetName m =
    (Returns (if is_error (resp_err (answer m name_transfer)) then []
              else fill (repeat x00 33)
                     (resp_written (answer m name_transfer)) ++ [x00]),
     logged m name_transfer).
Proof.
  unfold GetName. unfold bind at 1. rewrite control_run.
  change (mkTransfer _ _ _ _ _) with name_transfer.
  change (make_bytes 33) with (repeat x00 33).
  destruct (is_error _); reflexivity.
Qed.

Lemma GetInfo_run (m : Machine) :
  GetInfo m =
    (Returns (if is_error (resp_err (answer m info_transfer)) then []
              else fill (repeat x00 33)
                     (resp_written (answer m info_transfer)) ++ [x00]),
     logged m info_transfer).
Proof.
  unfold GetInfo. unfold bind at 1. rewrite control_run.
  change (mkTransfer _ _ _ _ _) with info_transfer.
  change (make_bytes 33) with (repeat x00 33).
  destruct (is_error _); reflexivity.
Qed.

Lemma SetName_run (name : list byte) (m : Machine) :
  SetName name m =
    (Returns (resp_err (answer m (mkTransfer 0x20 0x09 0x02 0x00 name))),
     logged m (mkTransfer 0x20 0x09 0x02 0x00 name)).
Proof. reflexivity. Qed.

Lemma SetInfo_run (info : list byte) (m : Machine) :
  SetInfo info m =
    (Returns (resp_err (answer m (mkTransfer 0x20 0x09 0x03 0x00 info))),
     logged m (mkTransfer 0x20 0x09 0x03 0x00 info)).
Proof. reflexivity. Qed.

Lemma SetRGB_run (channel index r g b : byte) (m : Machine) :
  let t := rgb_transfer (wire_colour (stick m) r) (wire_colour (stick m) g)
             (wire_colour (stick m) b) in
  SetRGB channel index r g b m = (Returns (resp_err (answer m t)), logged m t).
Proof.
  unfold SetRGB, wire_colour, bind, get_stick.
  destruct (Inverse (stick m)), (Byte.eqb index x00 && Byte.eqb channel x00);
    reflexivity.
Qed.

Lemma SetRandom_run (channel index : byte) (m : Machine) :
  let m1 := mkMachine (stick m) (log m) (rand_src m) (S (rand_pos m)) in
  let rColor := uint32 (rand_src m (rand_pos m)) in
  SetRandom channel index m =
    SetRGB channel index (byte_of_Z (Z.shiftr rColor 24))
      (byte_of_Z (Z.shiftr rColor 16)) (byte_of_Z (Z.shiftr rColor 8)) m1.
Proof. reflexivity. Qed.

(** ** The report loop of [SetLEDData] *)

Lemma firstn_snoc_nth (l : list byte) (n : nat) :
  (n < length l)%nat -> firstn (S n) l = firstn n l ++ [nth n l x00].
Proof.
  revert n. induction l as [|a l IH]; intros n Hn; simpl in Hn.
  - lia.
  - destruct n as [|n]; [reflexivity|].
    change (firstn (S (S n)) (a :: l)) with (a :: firstn (S n) l).
    rewrite IH by lia. reflexivity.
Qed.

Lemma report_loop (data report : list byte) (n : nat) :
  fold_left (report_step data) (seq 0 n) report =
    report ++ firstn n data ++ repeat x00 (n - length data).
Proof.
  induction n as [|n IH].
  - simpl. now rewrite app_nil_r.
  - rewrite seq_S, fold_left_app, IH. simpl fold_left.
    unfold report_step, len.
    destruct (Z.of_nat (length data) >? Z.of_nat n) eqn:E.
    + assert (Hn : (n < length data)%nat) by lia.
      replace (n - length data)%nat with 0%nat by lia.
      replace (S n - length data)%nat with 0%nat by lia.
      rewrite firstn_snoc_nth by exact Hn.
      simpl repeat. rewrite !app_nil_r. now rewrite <- app_assoc.
    + assert (Hn : (length data <= n)%nat) by lia.
      replace (S n - length data)%nat with (S (n - length data)) by lia.
      rewrite !firstn_all2 by lia.
      simpl repeat. rewrite repeat_cons. now rewrite <- !app_assoc.
Qed.

Lemma led_report_length (channel : byte) (data : list byte) (cap : nat) :
  length (led_report channel data cap) = (2 + cap)%nat.
Proof.
  unfold led_report.
  rewrite !length_app, length_firstn, repeat_length. simpl. lia.
Qed.

(** The four buckets, and nothing else. *)
Lemma getReportID_cases (c : Z) :
  (c <= 24 /\ getReportID c = (6, 8))
  \/ (25 <= c <= 48 /\ getReportID c = (7, 16))
  \/ (49 <= c <= 96 /\ getReportID c = (8, 32))
  \/ (97 <= c /\ getReportID c = (9, 64)).
Proof.
  unfold getReportID.
  destruct (c <=? 8 * 3) eqn:E1; [left; split; [lia | reflexivity]|].
  destruct (c <=? 16 * 3) eqn:E2; [right; left; split; [lia | reflexivity]|].
  destruct (c <=? 32 * 3) eqn:E3;
    [right; right; left; split; [lia | reflexivity]|].
  right; right; right. split; [lia|].
  destruct (c <=? 64 * 3); reflexivity.
Qed.

Lemma SetLEDData_run (channel : byte) (data : list byte) (m : Machine) :
  SetLEDData channel data m =
    (Returns (resp_err (answer m (led_transfer channel data))),
     logged m (led_transfer channel data)).
Proof.
  unfold SetLEDData, led_transfer.
  destruct (getReportID_cases (len data)) as [[_ E]|[[_ E]|[[_ E]|[_ E]]]];
    rewrite E; rewrite report_loop; reflexivity.
Qed.

(** ** [SetAllRGB] and [GetLEDData] *)

Lemma GetLEDCount_returns (m : Machine) :
  exists n, fst (GetLEDCount m) = Returns n.
Proof.
  destruct (Z.eq_dec (ledCount (stick m)) 0) as [E|E].
  - rewrite (GetLEDCount_query m E).
    destruct (is_error _ || _); eexists; reflexivity.
  - rewrite (GetLEDCount_cached m E). eexists; reflexivity.
Qed.

Lemma SetAllRGB_run (channel r g b : byte) (m : Machine) (n : Z)
  (m1 : Machine) :
  GetLEDCount m = (Returns n, m1) ->
  SetAllRGB channel r g b m =
    if n <? 0 then SetRGB channel x00 r g b m1
    else SetLEDData channel (triples r g b (Z.to_nat n)) m1.
Proof.
  intros E. unfold SetAllRGB. unfold bind at 1. rewrite E.
  destruct (n <? 0) eqn:En; [reflexivity|].
  unfold bytes_Repeat. rewrite En. reflexivity.
Qed.

Lemma triples_length (r g b : byte) (n : nat) :
  length (triples r g b n) = (3 * n)%nat.
Proof.
  unfold triples. induction n as [|n IH]; [reflexivity|].
  cbn [repeat concat app length]. rewrite IH. lia.
Qed.

Lemma triples_nth (r g b : byte) (n i : nat) :
  (i < n)%nat ->
  nth (3 * i) (triples r g b n) x00 = r
  /\ nth (3 * i + 1) (triples r g b n) x00 = g
  /\ nth (3 * i + 2) (triples r g b n) x00 = b.
Proof.
  revert i. induction n as [|n IH]; intros i Hi; [lia|].
  destruct i as [|i].
  - repeat split; reflexivity.
  - replace (3 * S i)%nat with (S (S (S (3 * i)))) by lia.
    change (triples r g b (S n)) with (r :: g :: b :: triples r g b n).
    simpl nth. apply IH. lia.
Qed.

Lemma int_wrap_range (bits z : Z) :
  bits = 32 \/ bits = 64 ->
  - 2 ^ (bits - 1) <= int_wrap bits z < 2 ^ (bits - 1).
Proof.
  unfold int_wrap. intros [-> | ->].
  - change (2 ^ (32 - 1)) with 2147483648. change (2 ^ 32) with 4294967296.
    pose proof (Z.mod_pos_bound (z + 2147483648) 4294967296). lia.
  - change (2 ^ (64 - 1)) with 9223372036854775808.
    change (2 ^ 64) with 18446744073709551616.
    pose proof
      (Z.mod_pos_bound (z + 9223372036854775808) 18446744073709551616).
    lia.
Qed.

Lemma int_wrap_small (bits z : Z) :
  bits = 32 \/ bits = 64 ->
  - 2 ^ (bits - 1) <= z < 2 ^ (bits - 1) -> int_wrap bits z = z.
Proof.
  unfold int_wrap. intros [-> | ->].
  - change (2 ^ (32 - 1)) with 2147483648. change (2 ^ 32) with 4294967296.
    intros H. rewrite Z.mod_small; lia.
  - change (2 ^ (64 - 1)) with 9223372036854775808.
    change (2 ^ 64) with 18446744073709551616.
    intros H. rewrite Z.mod_small; lia.
Qed.

(** Past the top of the range the sum comes back negative. *)
Lemma int_wrap_over (bits z : Z) :
  bits = 32 \/ bits = 64 ->
  2 ^ (bits - 1) <= z < 2 ^ (bits - 1) + 2 -> int_wrap bits z < 0.
Proof.
  unfold int_wrap. intros [-> | ->].
  - change (2 ^ (32 - 1)) with 2147483648. change (2 ^ 32) with 4294967296.
    intros H.
    replace (z + 2147483648) with (z - 2147483648 + 1 * 4294967296) by lia.
    rewrite Z_mod_plus_full, Z.mod_small; lia.
  - change (2 ^ (64 - 1)) with 9223372036854775808.
    change (2 ^ 64) with 18446744073709551616.
    intros H.
    replace (z + 9223372036854775808)
      with (z - 9223372036854775808 + 1 * 18446744073709551616) by lia.
    rewrite Z_mod_plus_full, Z.mod_small; lia.
Qed.

Lemma data_transfer_length (c3 : Z) :
  len (data (data_transfer c3)) = 2 + snd (getReportID c3) * 3.
Proof.
  unfold data_transfer.
  destruct (getReportID_cases c3) as [[_ E]|[[_ E]|[[_ E]|[_ E]]]];
    rewrite E; reflexivity.
Qed.

Lemma data_buffer_length (m : Machine) (c3 : Z) :
  len (data_buffer m c3) = 2 + snd (getReportID c3) * 3.
Proof.
  unfold data_buffer, len. rewrite fill_length. apply data_transfer_length.
Qed.

Lemma GetLEDData_raw (bits count : Z) (m : Machine) :
  GetLEDData bits count m =
    if (2 <=? int_add bits 2 (int_mul bits count 3))
       && (int_add bits 2 (int_mul bits count 3)
           <=? len (data_buffer m (int_mul bits count 3)))
    then (Returns
            (firstn (Z.to_nat (int_add bits 2 (int_mul bits count 3) - 2))
               (skipn 2 (data_buffer m (int_mul bits count 3))),
             resp_err (answer m (data_transfer (int_mul bits count 3)))),
          logged m (data_transfer (int_mul bits count 3)))
    else (Panics, logged m (data_transfer (int_mul bits count 3))).
Proof.
  unfold GetLEDData, data_buffer, data_transfer.
  destruct (getReportID_cases (int_mul bits count 3))
    as [[_ E]|[[_ E]|[[_ E]|[_ E]]]]; rewrite E;
    unfold bind at 1; rewrite control_run; cbv beta iota;
    unfold bind at 1, slice; cbn [andb Z.leb Z.compare data];
    change (Z.lor 128 32) with 160; change (Z.to_nat 2) with 2%nat;
    try change (make_bytes (uint16 (2 + uint16 (8 * 3))))
      with (repeat x00 (Z.to_nat (2 + 8 * 3)));
    try change (make_bytes (uint16 (2 + uint16 (16 * 3))))
      with (repeat x00 (Z.to_nat (2 + 16 * 3)));
    try change (make_bytes (uint16 (2 + uint16 (32 * 3))))
      with (repeat x00 (Z.to_nat (2 + 32 * 3)));
    try change (make_bytes (uint16 (2 + uint16 (64 * 3))))
      with (repeat x00 (Z.to_nat (2 + 64 * 3)));
    match goal with
    | |- context [if ?c then _ else _] => destruct c
    end; reflexivity.
Qed.

Lemma getReportID_capacity (c : Z) :
  0 <= c <= 192 -> c <= snd (getReportID c) * 3.
Proof.
  intros H.
  destruct (getReportID_cases c) as [[Hc E]|[[Hc E]|[[Hc E]|[Hc E]]]];
    rewrite E; simpl; lia.
Qed.

Lemma getReportID_bounds (c : Z) :
  6 <= fst (getReportID c) <= 9 /\ snd (getReportID c) <= 64.
Proof.
  destruct (getReportID_cases c) as [[Hc E]|[[Hc E]|[[Hc E]|[Hc E]]]];
    rewrite E; simpl; lia.
Qed.

Lemma GetLEDData_in_range (bits count : Z) (m : Machine) :
  bits = 32 \/ bits = 64 ->
  0 <= int_mul bits count 3 <= 192 ->
  GetLEDData bits count m =
    (Returns (firstn (Z.to_nat (int_mul bits count 3))
                (skipn 2 (data_buffer m (int_mul bits count 3))),
              resp_err (answer m (data_transfer (int_mul bits count 3)))),
     logged m (data_transfer (int_mul bits count 3))).
Proof.
  intros Hb Hc. rewrite GetLEDData_raw.
  assert (Hadd : int_add bits 2 (int_mul bits count 3)
                 = 2 + int_mul bits count 3).
  { unfold int_add. apply int_wrap_small; [exact Hb|].
    destruct Hb as [-> | ->].
    - change (2 ^ (32 - 1)) with 2147483648. lia.
    - change (2 ^ (64 - 1)) with 9223372036854775808. lia. }
  rewrite Hadd, data_buffer_length.
  pose proof (getReportID_capacity _ Hc) as Hcap.
  replace (2 <=? 2 + int_mul bits count 3) with true by (symmetry; lia).
  replace (2 + int_mul bits count 3
           <=? 2 + snd (getReportID (int_mul bits count 3)) * 3)
    with true by (symmetry; lia).
  cbn [andb].
  replace (2 + int_mul bits count 3 - 2) with (int_mul bits count 3) by lia.
  reflexivity.
Qed.

Lemma GetLEDData_out_of_range (bits count : Z) (m : Machine) :
  bits = 32 \/ bits = 64 ->
  int_mul bits count 3 < 0 \/ 192 < int_mul bits count 3 ->
  GetLEDData bits count m =
    (Panics, logged m (data_transfer (int_mul bits count 3))).
Proof.
  intros Hb Hc. rewrite GetLEDData_raw, data_buffer_length.
  pose proof (int_wrap_range bits (count * 3) Hb) as Hr.
  fold (int_mul bits count 3) in Hr.
  set (c3 := int_mul bits count 3) in *.
  assert (Hhi : int_add bits 2 c3 < 2
                \/ 2 + snd (getReportID c3) * 3 < int_add bits 2 c3).
  { unfold int_add.
    destruct (Z_lt_le_dec (2 + c3) (2 ^ (bits - 1))) as [Hs|Hs].
    - rewrite int_wrap_small by (try exact Hb; lia).
      destruct Hc as [Hc|Hc]; [left; lia|right].
      pose proof (getReportID_bounds c3). lia.
    - left. pose proof (int_wrap_over bits (2 + c3) Hb). lia. }
  destruct Hhi as [Hhi|Hhi].
  - replace (2 <=? int_add bits 2 c3) with false by (symmetry; lia).
    reflexivity.
  - replace (int_add bits 2 c3 <=? 2 + snd (getReportID c3) * 3)
      with false by (symmetry; lia).
    now rewrite andb_false_r.
Qed.

(** Within the machine range the product is the mathematical one. *)
Lemma int_mul_3_exact (bits count : Z) :
  bits = 32 \/ bits = 64 ->
  - 2 ^ (bits - 1) <= count * 3 < 2 ^ (bits - 1) ->
  int_mul bits count 3 = count * 3.
Proof. intros Hb H. unfold int_mul. now apply int_wrap_small. Qed.

(** ** What every call preserves *)

Lemma frame_refl (m : Machine) : frame m m [].
Proof.
  unfold frame. rewrite app_nil_r. cbn [forallb]. intuition auto.
Qed.

Lemma frame_logged (m : Machine) (t : Transfer) :
  table_row t = true -> frame m (logged m t) [t].
Proof.
  intros H. unfold frame. cbn [logged log stick forallb].
  rewrite H. intuition auto.
Qed.

Lemma frame_trans (m m1 m2 : Machine) (n1 n2 : list Transfer) :
  frame m m1 n1 -> frame m1 m2 n2 -> frame m m2 (n1 ++ n2).
Proof.
  intros (L1 & T1 & D1 & I1 & C1 & K1) (L2 & T2 & D2 & I2 & C2 & K2).
  unfold frame. rewrite L2, L1, app_assoc, forallb_app, T1, T2.
  split; [reflexivity|]. split; [reflexivity|].
  split; [congruence|]. split; [congruence|]. split; [|auto].
  intros Hc. rewrite <- (C1 Hc). apply C2. rewrite (C1 Hc). exact Hc.
Qed.

Lemma table_row_led_transfer (channel : byte) (leds : list byte) :
  table_row (led_transfer channel leds) = true.
Proof.
  unfold led_transfer.
  destruct (getReportID_cases (len leds)) as [[_ E]|[[_ E]|[[_ E]|[_ E]]]];
    rewrite E; unfold table_row, row_led_data;
    cbn [requestType request value index data];
    rewrite led_report_length; reflexivity.
Qed.

Lemma table_row_data_transfer (c3 : Z) :
  table_row (data_transfer c3) = true.
Proof.
  unfold data_transfer.
  destruct (getReportID_cases c3) as [[_ E]|[[_ E]|[[_ E]|[_ E]]]];
    rewrite E; reflexivity.
Qed.

Lemma GetLEDCount_frame (m : Machine) :
  exists n m1 new,
    GetLEDCount m = (Returns n, m1) /\ frame m m1 new
    /\ (new = [] \/ new = [count_transfer]).
Proof.
  destruct (Z.eq_dec (ledCount (stick m)) 0) as [E|E].
  - rewrite (GetLEDCount_query m E).
    destruct (is_error _ || _).
    + exists (-1), (logged m count_transfer), [count_transfer].
      split; [reflexivity|]. split; [|now right].
      now apply frame_logged.
    + exists (read_count m),
        (with_stick (logged m count_transfer)
           (set_ledCount (stick m) (read_count m))), [count_transfer].
      split; [reflexivity|]. split; [|now right].
      unfold frame, stick_ok. cbn.
      pose proof (read_count_range m). intuition auto.
  - rewrite (GetLEDCount_cached m E).
    exists (ledCount (stick m)), m, []. split; [reflexivity|].
    split; [apply frame_refl | now left].
Qed.

Lemma SetRGB_frame (channel index r g b : byte) (m : Machine) :
  exists t, frame m (snd (SetRGB channel index r g b m)) [t].
Proof.
  rewrite SetRGB_run. eexists. apply frame_logged. reflexivity.
Qed.

Lemma run_op_frame (bits : Z) (op : Op) (m : Machine) :
  exists new, frame m (run_op bits op m) new.
Proof.
  destruct op as [ | | |name|info|ch ix r g b|ch ix|ch r g b|count|ch leds];
    cbn [run_op].
  - destruct (GetLEDCount_frame m) as (n & m1 & new & E & F & _).
    rewrite E. now exists new.
  - rewrite GetName_run. eexists. now apply frame_logged.
  - rewrite GetInfo_run. eexists. now apply frame_logged.
  - rewrite SetName_run. eexists. now apply frame_logged.
  - rewrite SetInfo_run. eexists. now apply frame_logged.
  - destruct (SetRGB_frame ch ix r g b m) as [t F]. now exists [t].
  - rewrite SetRandom_run. cbv zeta.
    match goal with
    | |- context [SetRGB ?c ?i ?r ?g ?b ?m1] =>
        destruct (SetRGB_frame c i r g b m1) as [t F]
    end.
    exists [t]. exact F.
  - destruct (GetLEDCount_frame m) as (n & m1 & new & E & F & _).
    rewrite (SetAllRGB_run ch r g b m n m1 E).
    destruct (n <? 0).
    + destruct (SetRGB_frame ch x00 r g b m1) as [t F1].
      exists (new ++ [t]). now apply frame_trans with m1.
    + rewrite SetLEDData_run. eexists. apply frame_trans with m1; [exact F|].
      apply frame_logged, table_row_led_transfer.
  - rewrite GetLEDData_raw.
    exists [data_transfer (int_mul bits count 3)].
    destruct (_ && _); apply frame_logged, table_row_data_transfer.
  - rewrite SetLEDData_run. eexists.
    apply frame_logged, table_row_led_transfer.
Qed.

Lemma run_ops_frame (bits : Z) (ops : list Op) (m : Machine) :
  exists new, frame m (run_ops bits ops m) new.
Proof.
  revert m. induction ops as [|op ops IH]; intros m.
  - exists []. apply frame_refl.
  - cbn [run_ops fold_left].
    destruct (run_op_frame bits op m) as [n1 F1].
    destruct (IH (run_op bits op m)) as [n2 F2].
    exists (n1 ++ n2). now apply frame_trans with (run_op bits op m).
Qed.

(** Every stick [FindAll] hands out stays well formed, whatever is called on
    it. *)
Lemma reachable_stick_ok (bits : Z) (dev : Device) (serial : list byte)
  (rnd : nat -> Z) (ops : list Op) :
  stick_ok (stick (run_ops bits ops (start dev serial rnd))).
Proof.
  destruct (run_ops_frame bits ops (start dev serial rnd))
    as (new & _ & _ & _ & _ & _ & K).
  apply K. unfold stick_ok. cbn. lia.
Qed.

(** ** The wire protocol *)

(** C1: every operation issues its control transfer with the setup
    parameters of the wire-protocol table.  [GetLEDCount] sends
    (0xA0, 0x01, 0x81, 0x00) with a two-byte buffer when the count is not
    cached and nothing otherwise; [GetName]/[GetInfo] send (0xA0, 0x01) with
    value 0x02/0x03 and a 33-byte buffer; [SetName]/[SetInfo] send
    (0x20, 0x09) with value 0x02/0x03 and the string's bytes; [SetRGB] sends
    (0x20, 0x09, 0x01) with the four bytes [0, r, g, b] (the colour as put on
    the wire); [GetLEDData]/[SetLEDData] send (0xA0, 0x01) and (0x20, 0x09)
    with the selected report id, between 6 and 9, as value.  The index is 0
    throughout: after any sequence of calls, everything added to the log is
    a row of the table. *)
Theorem wire_protocol (bits : Z) (m : Machine) :
  log (snd (GetLEDCount m)) =
    log m ++ (if ledCount (stick m) =? 0
              then [mkTransfer 0xA0 0x01 0x81 0x00 [x00; x00]]
              else [])
  /\ log (snd (GetName m)) =
       log m ++ [mkTransfer 0xA0 0x01 0x02 0x00 (repeat x00 33)]
  /\ log (snd (GetInfo m)) =
       log m ++ [mkTransfer 0xA0 0x01 0x03 0x00 (repeat x00 33)]
  /\ (forall name,
        log (snd (SetName name m)) =
          log m ++ [mkTransfer 0x20 0x09 0x02 0x00 name])
  /\ (forall info,
        log (snd (SetInfo info m)) =
          log m ++ [mkTransfer 0x20 0x09 0x03 0x00 info])
  /\ (forall channel ix r g b,
        log (snd (SetRGB channel ix r g b m)) =
          log m ++ [mkTransfer 0x20 0x09 0x01 0x00
                      [x00; wire_colour (stick m) r; wire_colour (stick m) g;
                       wire_colour (stick m) b]])
  /\ (forall count,
        exists reportID maxLEDs,
          getReportID (int_mul bits count 3) = (reportID, maxLEDs)
          /\ 6 <= reportID <= 9
          /\ log (snd (GetLEDData bits count m)) =
               log m ++ [mkTransfer 0xA0 0x01 reportID 0x00
                           (repeat x00 (Z.to_nat (2 + maxLEDs * 3)))])
  /\ (forall channel leds,
        exists reportID maxLEDs payload,
          getReportID (len leds) = (reportID, maxLEDs)
          /\ 6 <= reportID <= 9
          /\ length payload = Z.to_nat (2 + maxLEDs * 3)
          /\ log (snd (SetLEDData channel leds m)) =
               log m ++ [mkTransfer 0x20 0x09 reportID 0x00 payload])
  /\ (forall ops,
        exists new,
          log (run_ops bits ops m) = log m ++ new
          /\ forallb table_row new = true
          /\ Forall (fun t => index t = 0x00) new).
Proof.
  split; [|split; [|split; [|split; [|split; [|split; [|split; [|split]]]]]]].
  - destruct (Z.eq_dec (ledCount (stick m)) 0) as [E|E].
    + rewrite (GetLEDCount_query m E), E.
      destruct (is_error _ || _); reflexivity.
    + rewrite (GetLEDCount_cached m E).
      apply Z.eqb_neq in E. rewrite E. now rewrite app_nil_r.
  - now rewrite GetName_run.
  - now rewrite GetInfo_run.
  - intros name. now rewrite SetName_run.
  - intros info. now rewrite SetInfo_run.
  - intros channel ix r g b. now rewrite SetRGB_run.
  - intros count. rewrite GetLEDData_raw.
    pose proof (getReportID_bounds (int_mul bits count 3)) as [Hb _].
    exists (fst (getReportID (int_mul bits count 3))),
      (snd (getReportID (int_mul bits count 3))).
    split; [now destruct (getReportID _)|]. split; [exact Hb|].
    unfold data_transfer.
    destruct (getReportID (int_mul bits count 3)) as [rid mx].
    destruct (_ && _); reflexivity.
  - intros channel leds. rewrite SetLEDData_run. unfold led_transfer.
    pose proof (getReportID_bounds (len leds)) as [Hb Hm].
    destruct (getReportID_cases (len leds))
      as [[_ E]|[[_ E]|[[_ E]|[_ E]]]]; rewrite E in *;
      do 3 eexists; (split; [reflexivity|]); (split; [exact Hb|]);
      (split; [|reflexivity]); rewrite led_report_length; reflexivity.
  - intros ops. destruct (run_ops_frame bits ops m) as (new & L & T & _).
    exists new. split; [exact L|]. split; [exact T|].
    apply Forall_forall. intros t Ht.
    rewrite forallb_forall in T. specialize (T t Ht).
    unfold table_row in T. apply andb_prop in T. destruct T as [T _].
    now apply Z.eqb_eq in T.
Qed.

(** ** The report-id buckets *)

(** C2: for every byte count [c], [getReportID] selects report id 6 with
    capacity 8 when [c <= 24], id 7 with capacity 16 when [25 <= c <= 48],
    id 8 with capacity 32 when [49 <= c <= 96], and id 9 with capacity 64 for
    every [c > 96].  The pair is (report id, capacity), as the function
    returns it. *)
Theorem getReportID_buckets (c : Z) :
  (c <= 24 -> getReportID c = (6, 8))
  /\ (25 <= c <= 48 -> getReportID c = (7, 16))
  /\ (49 <= c <= 96 -> getReportID c = (8, 32))
  /\ (96 < c -> getReportID c = (9, 64)).
Proof.
  destruct (getReportID_cases c) as [[H E]|[[H E]|[[H E]|[H E]]]];
    rewrite E; repeat split; intros; (reflexivity || lia).
Qed.

Lemma getReportID_buckets_witness :
  getReportID 0 = (6, 8) /\ getReportID 24 = (6, 8)
  /\ getReportID 25 = (7, 16) /\ getReportID 48 = (7, 16)
  /\ getReportID 49 = (8, 32) /\ getReportID 96 = (8, 32)
  /\ getReportID 97 = (9, 64) /\ getReportID 1000 = (9, 64).
Proof.
  split; [apply (getReportID_buckets 0); lia|].
  split; [apply (getReportID_buckets 24); lia|].
  split; [apply (getReportID_buckets 25); lia|].
  split; [apply (getReportID_buckets 48); lia|].
  split; [apply (getReportID_buckets 49); lia|].
  split; [apply (getReportID_buckets 96); lia|].
  split; [apply (getReportID_buckets 97); lia|].
  apply (getReportID_buckets 1000); lia.
Defined.

(** ** Inverted colours *)

(** With [Inverse] set, [SetRGB] puts the complement of each colour byte on
    the wire. *)
Lemma SetRGB_complements (channel ix r g b : byte) (m : Machine) :
  Inverse (stick m) = true ->
  exists r' g' b',
    log (snd (SetRGB channel ix r g b m)) =
      log m ++ [mkTransfer 0x20 0x09 0x01 0x00 [x00; r'; g'; b']]
    /\ byte_to_Z r' = 255 - byte_to_Z r
    /\ byte_to_Z g' = 255 - byte_to_Z g
    /\ byte_to_Z b' = 255 - byte_to_Z b.
Proof.
  intros Hi. rewrite SetRGB_run. unfold wire_colour. rewrite Hi.
  exists (byte_complement r), (byte_complement g), (byte_complement b).
  split; [reflexivity|]. now rewrite !byte_complement_spec.
Qed.

(** [SetLEDData] sends the same bytes whatever [Inverse] says. *)
Lemma SetLEDData_ignores_Inverse (channel : byte) (leds : list byte)
  (m : Machine) :
  log (snd (SetLEDData channel leds m)) =
    log m ++ [led_transfer channel leds].
Proof. now rewrite SetLEDData_run. Qed.

(** C3: with [Inverse] set, every RGB triple sent to the device is to be
    complemented.  [SetRGB] does it: white goes out as [0, 0, 0, 0].
    [SetLEDData] does not (the loop copies [data[i]] as it is), and neither
    does [SetAllRGB] on a device that reports its LED count: on the
    one-LED stick with [Inverse] set, white goes out as
    [0, 0, 255, 255, 255] followed by the padding. *)
Theorem Inverse_not_applied_to_LED_data :
  Inverse (stick inverse_machine) = true
  /\ log (snd (SetRGB x00 x00 xff xff xff inverse_machine)) =
       [mkTransfer 0x20 0x09 0x01 0x00 [x00; x00; x00; x00]]
  /\ log (snd (SetLEDData x00 [xff; xff; xff] inverse_machine)) =
       [mkTransfer 0x20 0x09 6 0x00
          ([x00; x00; xff; xff; xff] ++ repeat x00 21)]
  /\ log (snd (SetAllRGB x00 xff xff xff inverse_machine)) =
       [mkTransfer 0xA0 0x01 0x81 0x00 [x00; x00];
        mkTransfer 0x20 0x09 6 0x00
          ([x00; x00; xff; xff; xff] ++ repeat x00 21)].
Proof.
  split; [reflexivity|]. split; [reflexivity|].
  split; [reflexivity|]. vm_compute. reflexivity.
Qed.

(** ** The cached LED count *)




(** ** The framed LED buffer *)

(** C5, as stated, fails on data longer than 192 bytes: of 193 bytes the
    last one is dropped, so the payload is not the header followed by the
    data and padding. *)
Lemma SetLEDData_truncates_long_data :
  log (snd (SetLEDData x00 (repeat x01 193) quiet_machine)) =
    [mkTransfer 0x20 0x09 9 0x00 ([x00; x00] ++ repeat x01 192)]
  /\ (forall padding,
        [x00; x00] ++ repeat x01 192
        <> [x00; x00] ++ repeat x01 193 ++ padding).
Proof.
  split.
  - vm_compute. reflexivity.
  - intros padding H. apply (f_equal (@length byte)) in H.
    rewrite !length_app, !repeat_length in H. cbn [length] in H. lia.
Qed.

(** C5, amended: for every data slice, [SetLEDData] selects the bucket from
    [len(data)] and issues exactly one output transfer, whose payload is
    [0x00, channel] followed by the first [maxLEDs*3] data bytes and then
    zeros up to [maxLEDs*3] bytes, [2 + maxLEDs*3] bytes in all.  Data of at
    most 192 bytes is sent whole; when [len(data)] equals [maxLEDs*3] no
    padding is appended. *)
Theorem SetLEDData_payload (channel : byte) (leds : list byte) (m : Machine) :
  let reportID := fst (getReportID (len leds)) in
  let cap := Z.to_nat (snd (getReportID (len leds)) * 3) in
  let payload :=
    [x00; channel] ++ firstn cap leds ++ repeat x00 (cap - length leds) in
  SetLEDData channel leds m =
    (Returns (resp_err (answer m (mkTransfer 0x20 0x09 reportID 0x00 payload))),
     logged m (mkTransfer 0x20 0x09 reportID 0x00 payload))
  /\ length payload = (2 + cap)%nat
  /\ (len leds <= 192 ->
      payload = [x00; channel] ++ leds ++ repeat x00 (cap - length leds))
  /\ (length leds = cap -> payload = [x00; channel] ++ leds).
Proof.
  cbv zeta. split; [|split; [|split]].
  - rewrite SetLEDData_run. unfold led_transfer, led_report.
    now destruct (getReportID (len leds)).
  - apply led_report_length.
  - intros H. pose proof (getReportID_capacity (len leds)) as Hc.
    unfold len in *. rewrite firstn_all2 by lia. reflexivity.
  - intros H. rewrite <- H at 1. rewrite firstn_all, H, Nat.sub_diag.
    cbn [repeat]. now rewrite app_nil_r.
Qed.

Lemma SetLEDData_payload_witness :
  ([x00; x07] ++ firstn 24 [x01; x02; x03]
     ++ repeat x00 (24 - length [x01; x02; x03]) =
   [x00; x07] ++ [x01; x02; x03] ++ repeat x00 21)
  /\ ([x00; x07] ++ firstn 24 (repeat x09 24)
        ++ repeat x00 (24 - length (repeat x09 24)) =
      [x00; x07] ++ repeat x09 24).
Proof.
  split.
  - destruct (SetLEDData_payload x07 [x01; x02; x03] quiet_machine)
      as (_ & _ & H & _).
    apply H. vm_compute. discriminate.
  - destruct (SetLEDData_payload x07 (repeat x09 24) quiet_machine)
      as (_ & _ & _ & H).
    apply H. reflexivity.
Defined.

(** ** All LEDs at once *)

(** C6: when [GetLEDCount] gives a non-negative count [n], [SetAllRGB]
    calls [SetLEDData] with a buffer of exactly [3n] bytes, [n] repetitions
    of the triple [(r, g, b)]; when it gives a negative count, [SetAllRGB]
    is a single call of [SetRGB] with index 0, which issues one transfer. *)
Theorem SetAllRGB_buffer (channel r g b : byte) (m m1 : Machine) (n : Z) :
  GetLEDCount m = (Returns n, m1) ->
  (0 <= n ->
   exists leds,
     SetAllRGB channel r g b m = SetLEDData channel leds m1
     /\ len leds = 3 * n
     /\ leds = concat (repeat [r; g; b] (Z.to_nat n))
     /\ (forall i, (i < Z.to_nat n)%nat ->
           nth (3 * i) leds x00 = r
           /\ nth (3 * i + 1) leds x00 = g
           /\ nth (3 * i + 2) leds x00 = b))
  /\ (n < 0 ->
      SetAllRGB channel r g b m = SetRGB channel x00 r g b m1
      /\ length (log (snd (SetRGB channel x00 r g b m1)))
         = S (length (log m1))).
Proof.
  intros E. rewrite (SetAllRGB_run channel r g b m n m1 E). split.
  - intros Hn. replace (n <? 0) with false by (symmetry; lia).
    exists (triples r g b (Z.to_nat n)).
    split; [reflexivity|]. split; [|split; [reflexivity|]].
    + unfold len. rewrite triples_length. lia.
    + intros i Hi. now apply triples_nth.
  - intros Hn. replace (n <? 0) with true by (symmetry; lia).
    split; [reflexivity|]. rewrite SetRGB_run. cbn.
    rewrite length_app. cbn. lia.
Qed.

Lemma SetAllRGB_buffer_witness :
  (exists leds,
     SetAllRGB x00 x0a x14 x1e five_led_machine =
       SetLEDData x00 leds (snd (GetLEDCount five_led_machine))
     /\ len leds = 3 * 5)
  /\ SetAllRGB x00 x0a x14 x1e failing_machine =
       SetRGB x00 x00 x0a x14 x1e (snd (GetLEDCount failing_machine)).
Proof.
  split.
  - assert (E : GetLEDCount five_led_machine =
                  (Returns 5, snd (GetLEDCount five_led_machine)))
      by reflexivity.
    destruct (SetAllRGB_buffer x00 x0a x14 x1e _ _ _ E) as [H _].
    assert (Hn : 0 <= 5) by lia.
    destruct (H Hn) as (leds & H1 & H2 & _).
    exists leds. split; [exact H1 | exact H2].
  - assert (E : GetLEDCount failing_machine =
                  (Returns (-1), snd (GetLEDCount failing_machine)))
      by reflexivity.
    destruct (SetAllRGB_buffer x00 x0a x14 x1e _ _ _ E) as [_ H].
    assert (Hn : -1 < 0) by lia.
    exact (proj1 (H Hn)).
Defined.

(** ** Reading the LED data *)

(** C7, as stated, fails on a count above 64 whose triple overflows [int]:
    on 64 bits, [wrapping_count * 3] is [2^64 + 2], which the machine holds
    as 2, so the call selects the 8-LED bucket and returns two bytes instead
    of failing.  On 32 bits [wrapping_count32] does the same. *)
Lemma GetLEDData_accepts_wrapping_count :
  64 < wrapping_count < 2 ^ 63
  /\ wrapping_count * 3 = 2 ^ 64 + 2
  /\ int_mul 64 wrapping_count 3 = 2
  /\ GetLEDData 64 wrapping_count quiet_machine =
       (Returns ([x00; x00], None),
        logged quiet_machine (mkTransfer 0xA0 0x01 6 0x00 (repeat x00 26)))
  /\ 64 < wrapping_count32 < 2 ^ 31
  /\ int_mul 32 wrapping_count32 3 = 2
  /\ fst (GetLEDData 32 wrapping_count32 quiet_machine) =
       Returns ([x00; x00], None).
Proof.
  split; [split; reflexivity|]. split; [reflexivity|].
  split; [reflexivity|]. split; [vm_compute; reflexivity|].
  split; [split; reflexivity|]. split; [reflexivity|].
  vm_compute. reflexivity.
Qed.

(** C7, amended: for every count, [GetLEDData] issues its transfer with a
    response buffer of [2 + maxLEDs*3] bytes for the bucket of [count*3], the
    product as [int] holds it.  When that product lies in [0 .. 192], as for
    every count from 0 to 64, the call returns exactly the first [count*3]
    bytes after the two-byte header, together with the transport's error.
    When it is negative or above 192, as for every count above 64 or below 0
    whose triple fits [int], the call panics on the bounds of the slice
    expression, after the transfer, and reads nothing out of bounds. *)
Theorem GetLEDData_bounds (bits count : Z) (m : Machine) :
  bits = 32 \/ bits = 64 ->
  let c3 := int_mul bits count 3 in
  log (snd (GetLEDData bits count m)) =
    log m ++ [mkTransfer 0xA0 0x01 (fst (getReportID c3)) 0x00
                (repeat x00 (Z.to_nat (2 + snd (getReportID c3) * 3)))]
  /\ (0 <= c3 <= 192 ->
      fst (GetLEDData bits count m) =
        Returns (firstn (Z.to_nat c3) (skipn 2 (data_buffer m c3)),
                 resp_err (answer m (data_transfer c3)))
      /\ len (firstn (Z.to_nat c3) (skipn 2 (data_buffer m c3))) = c3)
  /\ (c3 < 0 \/ 192 < c3 -> fst (GetLEDData bits count m) = Panics)
  /\ (0 <= count <= 64 -> c3 = count * 3 /\ 0 <= c3 <= 192)
  /\ (64 < count -> count * 3 < 2 ^ (bits - 1) ->
      fst (GetLEDData bits count m) = Panics)
  /\ (count < 0 -> - 2 ^ (bits - 1) <= count * 3 ->
      fst (GetLEDData bits count m) = Panics).
Proof.
  intros Hb c3.
  assert (Hpow : 2 ^ 31 <= 2 ^ (bits - 1)).
  { destruct Hb as [-> | ->]; [reflexivity | discriminate]. }
  change (2 ^ 31) with 2147483648 in Hpow.
  split; [|split; [|split; [|split; [|split]]]].
  - rewrite GetLEDData_raw. fold c3. unfold data_transfer.
    destruct (getReportID c3). destruct (_ && _); reflexivity.
  - intros Hc. subst c3. rewrite (GetLEDData_in_range bits count m Hb Hc).
    split; [reflexivity|].
    pose proof (getReportID_capacity _ Hc) as Hcap.
    pose proof (data_buffer_length m (int_mul bits count 3)) as Hl.
    unfold len in *. rewrite length_firstn, length_skipn. lia.
  - intros Hc. subst c3.
    now rewrite (GetLEDData_out_of_range bits count m Hb Hc).
  - intros Hc. subst c3.
    rewrite (int_mul_3_exact bits count Hb) by lia. lia.
  - intros Hc Hfit.
    rewrite (GetLEDData_out_of_range bits count m Hb); [reflexivity|].
    rewrite (int_mul_3_exact bits count Hb) by lia. lia.
  - intros Hc Hfit.
    rewrite (GetLEDData_out_of_range bits count m Hb); [reflexivity|].
    rewrite (int_mul_3_exact bits count Hb) by lia. lia.
Qed.

Lemma GetLEDData_bounds_witness :
  fst (GetLEDData 64 2 quiet_machine) =
    Returns (firstn (Z.to_nat (int_mul 64 2 3))
               (skipn 2 (data_buffer quiet_machine (int_mul 64 2 3))),
             resp_err (answer quiet_machine
                         (data_transfer (int_mul 64 2 3))))
  /\ fst (GetLEDData 64 65 quiet_machine) = Panics
  /\ fst (GetLEDData 32 (-1) quiet_machine) = Panics.
Proof.
  assert (H64 : 64 = 32 \/ 64 = 64) by (right; reflexivity).
  assert (H32 : 32 = 32 \/ 32 = 64) by (left; reflexivity).
  split; [|split].
  - destruct (GetLEDData_bounds 64 2 quiet_machine H64) as (_ & H & _).
    apply H. vm_compute. split; discriminate.
  - destruct (GetLEDData_bounds 64 65 quiet_machine H64)
      as (_ & _ & _ & _ & H & _).
    apply H; reflexivity.
  - destruct (GetLEDData_bounds 32 (-1) quiet_machine H32)
      as (_ & _ & _ & _ & _ & H).
    apply H; [reflexivity | vm_compute; discriminate].
Defined.

(** ** Failures *)

(** C8: on a stick whose count is unset or a byte read before,
    [GetLEDCount] returns [-1] exactly when it issues the transfer (the count
    is not cached) and the transfer errors or moves fewer than 2 bytes.  Such
    a call leaves the struct as it was, so the next call issues the transfer
    again. *)
Theorem GetLEDCount_failure (m : Machine) :
  stick_ok (stick m) ->
  (fst (GetLEDCount m) = Returns (-1) <->
   ledCount (stick m) = 0
   /\ (resp_err (answer m (mkTransfer 0xA0 0x01 0x81 0x00 [x00; x00]))
       <> None
       \/ resp_len (answer m (mkTransfer 0xA0 0x01 0x81 0x00 [x00; x00]))
          < 2))
  /\ (fst (GetLEDCount m) = Returns (-1) ->
      stick (snd (GetLEDCount m)) = stick m
      /\ log (snd (GetLEDCount m)) =
           log m ++ [mkTransfer 0xA0 0x01 0x81 0x00 [x00; x00]]
      /\ log (snd (GetLEDCount (snd (GetLEDCount m)))) =
           log m ++ [mkTransfer 0xA0 0x01 0x81 0x00 [x00; x00];
                     mkTransfer 0xA0 0x01 0x81 0x00 [x00; x00]]).
Proof.
  intros Hok. unfold stick_ok in Hok.
  change (mkTransfer 0xA0 0x01 0x81 0x00 [x00; x00]) with count_transfer.
  destruct (Z.eq_dec (ledCount (stick m)) 0) as [E|E].
  - rewrite (GetLEDCount_query m E).
    destruct (is_error (resp_err (answer m count_transfer))) eqn:Ee;
      [|destruct (resp_len (answer m count_transfer) <? 2) eqn:El];
      cbn [orb fst snd].
    + assert (Herr : resp_err (answer m count_transfer) <> None)
        by (destruct (resp_err _); [discriminate | discriminate Ee]).
      split; [split; [intros _; split; [exact E | now left] | reflexivity]|].
      intros _. split; [reflexivity|]. split; [reflexivity|].
      rewrite (GetLEDCount_query (logged m count_transfer) E).
      destruct (is_error _ || _); cbn; now rewrite <- app_assoc.
    + split; [split; [intros _; split; [exact E | right; lia] | reflexivity]|].
      intros _. split; [reflexivity|]. split; [reflexivity|].
      rewrite (GetLEDCount_query (logged m count_transfer) E).
      destruct (is_error _ || _); cbn; now rewrite <- app_assoc.
    + pose proof (read_count_range m) as Hr.
      assert (Hne : Returns (read_count m) <> Returns (-1))
        by (intros H; injection H as H; lia).
      assert (Hnone : resp_err (answer m count_transfer) = None)
        by (destruct (resp_err _); [discriminate Ee | reflexivity]).
      split; [split|]; intros H.
      * now elim Hne.
      * destruct H as [_ [H|H]]; [now elim H | lia].
      * now elim Hne.
  - rewrite (GetLEDCount_cached m E). cbn [fst snd].
    assert (Hne : Returns (ledCount (stick m)) <> Returns (-1))
      by (intros H; injection H as H; lia).
    split; [split|]; intros H.
    + now elim Hne.
    + destruct H as [H _]. now elim E.
    + now elim Hne.
Qed.

Lemma GetLEDCount_failure_witness :
  fst (GetLEDCount failing_machine) = Returns (-1)
  /\ stick (snd (GetLEDCount failing_machine)) = stick failing_machine
  /\ length (log (snd (GetLEDCount (snd (GetLEDCount failing_machine)))))
     = 2%nat.
Proof.
  assert (Hok : stick_ok (stick failing_machine))
    by (split; discriminate).
  destruct (GetLEDCount_failure failing_machine Hok) as [[_ Hiff] Hkeep].
  assert (Hret : fst (GetLEDCount failing_machine) = Returns (-1)).
  { apply Hiff. split; [reflexivity|]. left. discriminate. }
  destruct (Hkeep Hret) as (Hs & _ & Hl).
  split; [exact Hret|]. split; [exact Hs|]. now rewrite Hl.
Defined.

(** C9, as stated, fails for [GetLEDData]: on a transport where every
    transfer fails, a count of 65 makes the call panic on the slice bounds
    instead of returning the transport's error.  And [SetAllRGB] returns no
    error when only its count query failed. *)
Lemma GetLEDData_panics_on_failing_transport :
  (forall history t,
     resp_err (device (stick failing_machine) history t)
     = Some (UsbError (-1)))
  /\ fst (GetLEDData 64 65 failing_machine) = Panics
  /\ fst (GetLEDData 32 65 failing_machine) = Panics
  /\ resp_err (answer countless_machine
                 (mkTransfer 0xA0 0x01 0x81 0x00 [x00; x00]))
     = Some (UsbError (-9))
  /\ fst (SetAllRGB x00 xff xff xff countless_machine) = Returns None.
Proof.
  split; [reflexivity|]. split; [vm_compute; reflexivity|].
  split; [vm_compute; reflexivity|]. split; reflexivity.
Qed.

(** C9, amended: every operation reports the outcome of its own control
    transfer.  [GetName] and [GetInfo] return the empty string whenever
    their transfer reports an error, and never the error.  [SetName],
    [SetInfo], [SetRGB], [SetRandom] and [SetLEDData] return exactly what
    their transfer reported, an error or nil, as it is.  [SetAllRGB] returns
    exactly what its colour transfer reported (the [SetRGB] transfer after a
    negative count, the [SetLEDData] frame otherwise), so a failure of its
    count query alone is not reported.  [GetLEDData] returns exactly what its
    transfer reported, next to the slice, when [count*3] as [int] holds it
    lies in [0 .. 192], and panics otherwise. *)
Theorem transport_failure_policy (bits : Z) (m : Machine) :
  bits = 32 \/ bits = 64 ->
  (resp_err (answer m (mkTransfer 0xA0 0x01 0x02 0x00 (repeat x00 33)))
   <> None ->
   fst (GetName m) = Returns [])
  /\ (resp_err (answer m (mkTransfer 0xA0 0x01 0x03 0x00 (repeat x00 33)))
      <> None ->
      fst (GetInfo m) = Returns [])
  /\ (forall name,
        fst (SetName name m) =
          Returns (resp_err (answer m (mkTransfer 0x20 0x09 0x02 0x00 name))))
  /\ (forall info,
        fst (SetInfo info m) =
          Returns (resp_err (answer m (mkTransfer 0x20 0x09 0x03 0x00 info))))
  /\ (forall channel ix r g b,
        fst (SetRGB channel ix r g b m) =
          Returns
            (resp_err
               (answer m
                  (mkTransfer 0x20 0x09 0x01 0x00
                     [x00; wire_colour (stick m) r; wire_colour (stick m) g;
                      wire_colour (stick m) b]))))
  /\ (forall channel ix,
        fst (SetRandom channel ix m) =
          Returns
            (resp_err
               (answer m
                  (mkTransfer 0x20 0x09 0x01 0x00
                     [x00;
                      wire_colour (stick m)
                        (byte_of_Z
                           (Z.shiftr (uint32 (rand_src m (rand_pos m))) 24));
                      wire_colour (stick m)
                        (byte_of_Z
                           (Z.shiftr (uint32 (rand_src m (rand_pos m))) 16));
                      wire_colour (stick m)
                        (byte_of_Z
                           (Z.shiftr (uint32 (rand_src m (rand_pos m)))
                              8))]))))
  /\ (forall channel leds,
        fst (SetLEDData channel leds m) =
          Returns
            (resp_err
               (answer m
                  (mkTransfer 0x20 0x09 (fst (getReportID (len leds))) 0x00
                     ([x00; channel]
                      ++ firstn
                           (Z.to_nat (snd (getReportID (len leds)) * 3)) leds
                      ++ repeat x00
                           (Z.to_nat (snd (getReportID (len leds)) * 3)
                            - length leds))))))
  /\ (forall channel r g b n m1,
        GetLEDCount m = (Returns n, m1) ->
        (n < 0 ->
         fst (SetAllRGB channel r g b m) =
           Returns
             (resp_err
                (answer m1
                   (mkTransfer 0x20 0x09 0x01 0x00
                      [x00; wire_colour (stick m1) r;
                       wire_colour (stick m1) g;
                       wire_colour (stick m1) b]))))
        /\ (0 <= n ->
            fst (SetAllRGB channel r g b m) =
              Returns
                (resp_err
                   (answer m1
                      (mkTransfer 0x20 0x09 (fst (getReportID (3 * n))) 0x00
                         ([x00; channel]
                          ++ firstn
                               (Z.to_nat (snd (getReportID (3 * n)) * 3))
                               (concat (repeat [r; g; b] (Z.to_nat n)))
                          ++ repeat x00
                               (Z.to_nat (snd (getReportID (3 * n)) * 3)
                                - 3 * Z.to_nat n)))))))
  /\ (forall count,
        0 <= int_mul bits count 3 <= 192 ->
        fst (GetLEDData bits count m) =
          Returns
            (firstn (Z.to_nat (int_mul bits count 3))
               (skipn 2
                  (fill
                     (repeat x00
                        (Z.to_nat
                           (2 + snd (getReportID (int_mul bits count 3)) * 3)))
                     (resp_written
                        (answer m
                           (mkTransfer 0xA0 0x01
                              (fst (getReportID (int_mul bits count 3))) 0x00
                              (repeat x00
                                 (Z.to_nat
                                    (2 + snd (getReportID
                                                (int_mul bits count 3))
                                         * 3)))))))),
             resp_err
               (answer m
                  (mkTransfer 0xA0 0x01
                     (fst (getReportID (int_mul bits count 3))) 0x00
                     (repeat x00
                        (Z.to_nat
                           (2 + snd (getReportID (int_mul bits count 3))
                                * 3)))))))
  /\ (forall count,
        int_mul bits count 3 < 0 \/ 192 < int_mul bits count 3 ->
        fst (GetLEDData bits count m) = Panics).
Proof.
  intros Hb.
  assert (Hled : forall channel leds,
            led_transfer channel leds =
              mkTransfer 0x20 0x09 (fst (getReportID (len leds))) 0x00
                ([x00; channel]
                 ++ firstn (Z.to_nat (snd (getReportID (len leds)) * 3)) leds
                 ++ repeat x00
                      (Z.to_nat (snd (getReportID (len leds)) * 3)
                       - length leds))).
  { intros channel leds. unfold led_transfer, led_report.
    now destruct (getReportID (len leds)). }
  assert (Hdata : forall c3,
            data_transfer c3 =
              mkTransfer 0xA0 0x01 (fst (getReportID c3)) 0x00
                (repeat x00 (Z.to_nat (2 + snd (getReportID c3) * 3)))).
  { intros c3. unfold data_transfer. now destruct (getReportID c3). }
  split; [|split; [|split; [|split; [|split; [|split;
    [|split; [|split; [|split]]]]]]]].
  - intros He. rewrite GetName_run. cbn [fst]. unfold name_transfer.
    destruct (resp_err _); [reflexivity | now elim He].
  - intros He. rewrite GetInfo_run. cbn [fst]. unfold info_transfer.
    destruct (resp_err _); [reflexivity | now elim He].
  - intros name. now rewrite SetName_run.
  - intros info. now rewrite SetInfo_run.
  - intros channel ix r g b. now rewrite SetRGB_run.
  - intros channel ix. rewrite SetRandom_run. cbv zeta.
    now rewrite SetRGB_run.
  - intros channel leds. rewrite SetLEDData_run. cbn [fst].
    now rewrite Hled.
  - intros channel r g b n m1 E.
    rewrite (SetAllRGB_run channel r g b m n m1 E). split; intros Hn.
    + replace (n <? 0) with true by (symmetry; lia).
      now rewrite SetRGB_run.
    + replace (n <? 0) with false by (symmetry; lia).
      rewrite SetLEDData_run. cbn [fst]. rewrite Hled.
      assert (Hlen : len (triples r g b (Z.to_nat n)) = 3 * n)
        by (unfold len; rewrite triples_length; lia).
      rewrite Hlen, triples_length. reflexivity.
  - intros count Hc. rewrite (GetLEDData_in_range bits count m Hb Hc).
    cbn [fst]. unfold data_buffer. rewrite Hdata. reflexivity.
  - intros count Hc.
    now rewrite (GetLEDData_out_of_range bits count m Hb Hc).
Qed.

Lemma transport_failure_policy_witness :
  fst (GetName failing_machine) = Returns []
  /\ fst (SetAllRGB x00 x01 x02 x03 failing_machine)
     = Returns (Some (UsbError (-1)))
  /\ fst (SetAllRGB x00 x01 x02 x03 five_led_machine) = Returns None
  /\ fst (GetLEDData 64 65 failing_machine) = Panics.
Proof.
  assert (Hb : 64 = 32 \/ 64 = 64) by (right; reflexivity).
  destruct (transport_failure_policy 64 failing_machine Hb)
    as (Hname & _ & _ & _ & _ & _ & _ & Hall & _ & Hpanic).
  destruct (transport_failure_policy 64 five_led_machine Hb)
    as (_ & _ & _ & _ & _ & _ & _ & Hall5 & _).
  split; [apply Hname; discriminate|].
  split; [|split].
  - assert (E : GetLEDCount failing_machine =
                  (Returns (-1), snd (GetLEDCount failing_machine)))
      by reflexivity.
    destruct (Hall x00 x01 x02 x03 _ _ E) as [H _].
    rewrite H by reflexivity. reflexivity.
  - assert (E : GetLEDCount five_led_machine =
                  (Returns 5, snd (GetLEDCount five_led_machine)))
      by reflexivity.
    destruct (Hall5 x00 x01 x02 x03 _ _ E) as [_ H].
    rewrite H by discriminate. reflexivity.
  - apply Hpanic. right. reflexivity.
Defined.

(** ** The strings read from the device *)

(** C10: when the transfer succeeds, [GetName] and [GetInfo] return the
    whole 33-byte response buffer followed by one zero byte: 34 bytes,
    nothing cut at a zero byte inside, so the string always holds a zero
    byte. *)
Theorem GetName_GetInfo_length (m : Machine) :
  (resp_err (answer m (mkTransfer 0xA0 0x01 0x02 0x00 (repeat x00 33)))
   = None ->
   exists buffer,
     buffer = fill (repeat x00 33)
                (resp_written
                   (answer m (mkTransfer 0xA0 0x01 0x02 0x00
                                (repeat x00 33))))
     /\ length buffer = 33%nat
     /\ fst (GetName m) = Returns (buffer ++ [x00])
     /\ length (buffer ++ [x00]) = 34%nat
     /\ In x00 (buffer ++ [x00]))
  /\ (resp_err (answer m (mkTransfer 0xA0 0x01 0x03 0x00 (repeat x00 33)))
      = None ->
      exists buffer,
        buffer = fill (repeat x00 33)
                   (resp_written
                      (answer m (mkTransfer 0xA0 0x01 0x03 0x00
                                   (repeat x00 33))))
        /\ length buffer = 33%nat
        /\ fst (GetInfo m) = Returns (buffer ++ [x00])
        /\ length (buffer ++ [x00]) = 34%nat
        /\ In x00 (buffer ++ [x00])).
Proof.
  split; intros Hok; eexists; (split; [reflexivity|]).
  - split; [now rewrite fill_length|].
    rewrite GetName_run. unfold name_transfer. rewrite Hok. cbn [is_error fst].
    split; [reflexivity|].
    split; [rewrite length_app, fill_length; reflexivity|].
    apply in_or_app. right. now left.
  - split; [now rewrite fill_length|].
    rewrite GetInfo_run. unfold info_transfer. rewrite Hok. cbn [is_error fst].
    split; [reflexivity|].
    split; [rewrite length_app, fill_length; reflexivity|].
    apply in_or_app. right. now left.
Qed.

Lemma GetName_GetInfo_length_witness :
  (exists buffer,
     fst (GetName quiet_machine) = Returns (buffer ++ [x00])
     /\ length (buffer ++ [x00]) = 34%nat)
  /\ (exists buffer,
        fst (GetInfo (start (counting_device x05) [] no_rand))
        = Returns (buffer ++ [x00])
        /\ length (buffer ++ [x00]) = 34%nat).
Proof.
  split.
  - destruct (GetName_GetInfo_length quiet_machine) as [H _].
    destruct (H eq_refl) as (buffer & _ & _ & Hr & Hl & _).
    exists buffer. split; [exact Hr | exact Hl].
  - destruct (GetName_GetInfo_length (start (counting_device x05) [] no_rand))
      as [_ H].
    destruct (H eq_refl) as (buffer & _ & _ & Hr & Hl & _).
    exists buffer. split; [exact Hr | exact Hl].
Defined.

(** * Beyond the claims *)

(** ** Discovery *)

Lemma FindAll_loop (devices : list UsbDevice) (sticks : list BlinkStick)
  (printed : list error) :
  fold_left FindAll_step devices (sticks, printed) =
    (sticks ++ map stick_of devices,
     printed ++ flat_map serial_errors devices).
Proof.
  revert sticks printed.
  induction devices as [|d devices IH]; intros sticks printed.
  - cbn. now rewrite !app_nil_r.
  - cbn [fold_left map flat_map].
    assert (E : FindAll_step (sticks, printed) d =
                (sticks ++ [stick_of d], printed ++ serial_errors d)).
    { unfold FindAll_step, stick_of, serial_errors.
      destruct (usb_SerialNumber d) as [serial [e|]]; cbn [fst snd];
        rewrite ?app_nil_r; reflexivity. }
    rewrite E, IH, <- !app_assoc. reflexivity.
Qed.

(** X1: [FindAll] either fails as a whole or returns one stick per opened
    device: when [OpenDevices] reports an error the result is that error and
    no stick, whatever was opened; otherwise it is, in order, one fresh
    stick per opened device, carrying whatever [SerialNumber] returned, and
    one line is printed per serial number that could not be read. *)
Theorem FindAll_all_or_nothing (ctx : Context) :
  (snd (ctx filterBlinkStick) <> None ->
   FindAll ctx = ([], snd (ctx filterBlinkStick), []))
  /\ (snd (ctx filterBlinkStick) = None ->
      FindAll ctx =
        (map (fun usbdev =>
                mkBlinkStick (usb_Control usbdev)
                  (fst (usb_SerialNumber usbdev)) false false 0)
           (fst (ctx filterBlinkStick)),
         None,
         flat_map (fun usbdev =>
                     match snd (usb_SerialNumber usbdev) with
                     | Some e => [e]
                     | None => []
                     end)
           (fst (ctx filterBlinkStick)))).
Proof.
  unfold FindAll. destruct (ctx filterBlinkStick) as [devices [e|]];
    cbn [fst snd is_error]; split; intros H; try congruence.
  rewrite FindAll_loop. reflexivity.
Qed.

Lemma FindAll_all_or_nothing_witness :
  FindAll broken_context = ([], Some (UsbError (-99)), [])
  /\ FindAll (bus_context sample_bus) =
       ([mkBlinkStick (counting_device x08) [] false false 0;
         mkBlinkStick countless_device [x42; x53] false false 0],
        None, [UsbError (-4)]).
Proof.
  split.
  - apply (FindAll_all_or_nothing broken_context). discriminate.
  - apply (FindAll_all_or_nothing (bus_context sample_bus)). reflexivity.
Defined.

(** X2: On a bus whose enumeration opens every accepted device, [FindAll]
    returns a stick for exactly the attached devices with vendor id 0x20A0
    and product id 0x41E5, in bus order, and for no other device. *)
Theorem FindAll_selects_BlinkSticks (bus : list (DeviceDesc * UsbDevice)) :
  fst (fst (FindAll (bus_context bus))) =
    map (fun entry => stick_of (snd entry))
      (filter (fun entry =>
                 (Vendor (fst entry) =? 0x20A0)
                 && (Product (fst entry) =? 0x41E5)) bus)
  /\ (forall stk,
        In stk (fst (fst (FindAll (bus_context bus)))) <->
        exists desc usbdev,
          In (desc, usbdev) bus
          /\ Vendor desc = 0x20A0 /\ Product desc = 0x41E5
          /\ stk = stick_of usbdev)
  /\ (length (fst (fst (FindAll (bus_context bus)))) <= length bus)%nat.
Proof.
  assert (E : fst (fst (FindAll (bus_context bus))) =
              map (fun entry => stick_of (snd entry))
                (filter (fun entry => filterBlinkStick (fst entry)) bus)).
  { unfold FindAll, bus_context. cbn [is_error].
    rewrite FindAll_loop. cbn [fst app]. now rewrite map_map. }
  change (fun entry : DeviceDesc * UsbDevice =>
            (Vendor (fst entry) =? 0x20A0) && (Product (fst entry) =? 0x41E5))
    with (fun entry : DeviceDesc * UsbDevice => filterBlinkStick (fst entry)).
  split; [exact E|]. split.
  - intros stk. rewrite E, in_map_iff. split.
    + intros ([desc usbdev] & Hs & Hin). apply filter_In in Hin.
      destruct Hin as [Hin Hf]. unfold filterBlinkStick in Hf.
      cbn [fst] in Hf. apply andb_prop in Hf. destruct Hf as [Hv Hp].
      apply Z.eqb_eq in Hv, Hp.
      exists desc, usbdev. now repeat split.
    + intros (desc & usbdev & Hin & Hv & Hp & ->).
      exists (desc, usbdev). split; [reflexivity|].
      apply filter_In. split; [exact Hin|].
      unfold filterBlinkStick. cbn [fst]. rewrite Hv, Hp. reflexivity.
  - rewrite E, length_map. apply filter_length_le.
Qed.

(** ** What no call touches *)

Lemma set_ledCount_same (stk : BlinkStick) :
  set_ledCount stk (ledCount stk) = stk.
Proof. now destruct stk. Qed.

Lemma run_op_touches (bits : Z) (op : Op) (m : Machine) :
  (exists n, stick (run_op bits op m) = set_ledCount (stick m) n)
  /\ rand_src (run_op bits op m) = rand_src m
  /\ (rand_pos m <= rand_pos (run_op bits op m))%nat.
Proof.
  assert (Hsame : exists n, stick m = set_ledCount (stick m) n)
    by (exists (ledCount (stick m)); now rewrite set_ledCount_same).
  assert (Hcount : forall m0,
            (exists n, stick (snd (GetLEDCount m0))
                       = set_ledCount (stick m0) n)
            /\ rand_src (snd (GetLEDCount m0)) = rand_src m0
            /\ rand_pos (snd (GetLEDCount m0)) = rand_pos m0).
  { intros m0. destruct (Z.eq_dec (ledCount (stick m0)) 0) as [E|E].
    - rewrite (GetLEDCount_query m0 E). destruct (is_error _ || _); cbn.
      + split; [|now split]. exists (ledCount (stick m0)).
        now rewrite set_ledCount_same.
      + split; [|now split]. now eexists.
    - rewrite (GetLEDCount_cached m0 E). cbn.
      split; [|now split]. exists (ledCount (stick m0)).
      now rewrite set_ledCount_same. }
  destruct op as [ | | |name|info|ch ix r g b|ch ix|ch r g b|count|ch leds];
    cbn [run_op].
  - destruct (Hcount m) as (H1 & H2 & H3). split; [exact H1|].
    split; [exact H2 | lia].
  - rewrite GetName_run. cbn. now repeat split.
  - rewrite GetInfo_run. cbn. now repeat split.
  - rewrite SetName_run. cbn. now repeat split.
  - rewrite SetInfo_run. cbn. now repeat split.
  - rewrite SetRGB_run. cbn. now repeat split.
  - rewrite SetRandom_run. cbv zeta. rewrite SetRGB_run. cbn.
    split; [exact Hsame|]. split; [reflexivity | lia].
  - destruct (Hcount m) as ([n Hn] & H2 & H3).
    destruct (GetLEDCount_frame m) as (c & m1 & new & E & _).
    rewrite E in Hn, H2, H3. cbn [snd] in Hn, H2, H3.
    rewrite (SetAllRGB_run ch r g b m c m1 E).
    destruct (c <? 0).
    + rewrite SetRGB_run. cbn. split; [now exists n|].
      split; [exact H2 | lia].
    + rewrite SetLEDData_run. cbn. split; [now exists n|].
      split; [exact H2 | lia].
  - rewrite GetLEDData_raw. destruct (_ && _); cbn; now repeat split.
  - rewrite SetLEDData_run. cbn. now repeat split.
Qed.

(** X4: Whatever is called on a stick, in whatever order, the device, the
    serial number and the two colour flags stay as they were: the only field
    of the struct a call writes is the cached LED count.  The transfer log
    only grows at its end, and the random source is only read forward. *)
Theorem calls_write_only_the_cached_count (bits : Z) (ops : list Op)
  (m : Machine) :
  (exists n, stick (run_ops bits ops m) = set_ledCount (stick m) n)
  /\ device (stick (run_ops bits ops m)) = device (stick m)
  /\ Serial (stick (run_ops bits ops m)) = Serial (stick m)
  /\ Inverse (stick (run_ops bits ops m)) = Inverse (stick m)
  /\ RGB (stick (run_ops bits ops m)) = RGB (stick m)
  /\ (exists new, log (run_ops bits ops m) = log m ++ new)
  /\ rand_src (run_ops bits ops m) = rand_src m
  /\ (rand_pos m <= rand_pos (run_ops bits ops m))%nat.
Proof.
  assert (H : (exists n, stick (run_ops bits ops m)
                         = set_ledCount (stick m) n)
              /\ rand_src (run_ops bits ops m) = rand_src m
              /\ (rand_pos m <= rand_pos (run_ops bits ops m))%nat).
  { revert m. induction ops as [|op ops IH]; intros m.
    - cbn. split; [|split; [reflexivity | lia]].
      exists (ledCount (stick m)). now rewrite set_ledCount_same.
    - cbn [run_ops fold_left].
      destruct (run_op_touches bits op m) as ([n1 H1] & R1 & P1).
      destruct (IH (run_op bits op m)) as ([n2 H2] & R2 & P2).
      unfold run_ops in *. split; [|split; [congruence | lia]].
      exists n2. rewrite H2, H1. reflexivity. }
  destruct H as ([n Hn] & Hr & Hp).
  destruct (run_ops_frame bits ops m) as (new & Hl & _).
  split; [now exists n|]. rewrite Hn.
  repeat split; try reflexivity; try assumption. now exists new.
Qed.

(** ** How many transfers a call costs *)

(** X5: Every call issues exactly one control transfer, with two exceptions
    that hang on the cached LED count: [GetLEDCount] issues none once the
    count is cached, and [SetAllRGB] issues a second one, the count query,
    as long as it is not.  This holds also when the call panics or the
    transport fails. *)
Theorem transfers_per_call (bits : Z) (op : Op) (m : Machine) :
  length (log (run_op bits op m)) =
    (length (log m) +
     match op with
     | CallGetLEDCount => if (ledCount (stick m) =? 0)%Z then 1 else 0
     | CallSetAllRGB _ _ _ _ => if (ledCount (stick m) =? 0)%Z then 2 else 1
     | _ => 1
     end)%nat.
Proof.
  assert (Hcount : forall m0,
            log (snd (GetLEDCount m0)) =
              log m0 ++ (if ledCount (stick m0) =? 0
                         then [count_transfer] else [])).
  { intros m0. destruct (Z.eq_dec (ledCount (stick m0)) 0) as [E|E].
    - rewrite (GetLEDCount_query m0 E), E.
      destruct (is_error _ || _); reflexivity.
    - rewrite (GetLEDCount_cached m0 E). apply Z.eqb_neq in E.
      rewrite E. now rewrite app_nil_r. }
  destruct op as [ | | |name|info|ch ix r g b|ch ix|ch r g b|count|ch leds];
    cbn [run_op].
  - rewrite Hcount, length_app.
    destruct (ledCount (stick m) =? 0); reflexivity.
  - rewrite GetName_run. cbn. now rewrite length_app.
  - rewrite GetInfo_run. cbn. now rewrite length_app.
  - rewrite SetName_run. cbn. now rewrite length_app.
  - rewrite SetInfo_run. cbn. now rewrite length_app.
  - rewrite SetRGB_run. cbn. now rewrite length_app.
  - rewrite SetRandom_run. cbv zeta. rewrite SetRGB_run. cbn.
    now rewrite length_app.
  - specialize (Hcount m).
    destruct (GetLEDCount_frame m) as (c & m1 & new & E & _).
    rewrite E in Hcount. cbn [snd] in Hcount.
    rewrite (SetAllRGB_run ch r g b m c m1 E).
    destruct (c <? 0).
    + rewrite SetRGB_run. cbn. rewrite Hcount, !length_app.
      destruct (ledCount (stick m) =? 0); cbn; lia.
    + rewrite SetLEDData_run. cbn. rewrite Hcount, !length_app.
      destruct (ledCount (stick m) =? 0); cbn; lia.
  - rewrite GetLEDData_raw. destruct (_ && _); cbn; now rewrite length_app.
  - rewrite SetLEDData_run. cbn. now rewrite length_app.
Qed.

(** ** [SetRGB] *)

(** X6: [SetRGB] does not look at its channel and index: two calls that differ
    only there return the same result and issue the same transfer. *)
Theorem SetRGB_ignores_channel_and_index
  (channel ix channel' ix' r g b : byte) (m : Machine) :
  SetRGB channel ix r g b m = SetRGB channel' ix' r g b m.
Proof. now rewrite !SetRGB_run. Qed.

(** X7: On a stick with [Inverse] set, asking for the complement of a colour
    puts the colour itself on the wire: the inversion undoes itself. *)
Theorem SetRGB_Inverse_round_trip (channel ix r g b : byte) (m : Machine) :
  Inverse (stick m) = true ->
  log (snd (SetRGB channel ix (byte_of_Z (255 - byte_to_Z r))
              (byte_of_Z (255 - byte_to_Z g))
              (byte_of_Z (255 - byte_to_Z b)) m)) =
    log m ++ [mkTransfer 0x20 0x09 0x01 0x00 [x00; r; g; b]].
Proof.
  intros Hi. rewrite SetRGB_run. unfold wire_colour. rewrite Hi.
  fold (byte_complement r) (byte_complement g) (byte_complement b).
  now rewrite !byte_complement_involutive.
Qed.

Lemma SetRGB_Inverse_round_trip_witness :
  log (snd (SetRGB x00 x00 (byte_of_Z (255 - byte_to_Z x10))
              (byte_of_Z (255 - byte_to_Z x20))
              (byte_of_Z (255 - byte_to_Z x30)) inverse_machine)) =
    log inverse_machine
    ++ [mkTransfer 0x20 0x09 0x01 0x00 [x00; x10; x20; x30]].
Proof.
  apply (SetRGB_Inverse_round_trip x00 x00 x10 x20 x30 inverse_machine).
  reflexivity.
Defined.

(** ** [SetRandom] *)

(** X8: [SetRandom] draws one 32-bit value [x] and calls [SetRGB] with its three
    high bytes: red is bits 31-24, green bits 23-16, blue bits 15-8.  The low
    byte is dropped; together the four bytes make up [x] again. *)
Theorem SetRandom_takes_the_high_bytes (channel ix : byte) (m : Machine) :
  let x := rand_src m (rand_pos m) mod 2 ^ 32 in
  exists r g b,
    SetRandom channel ix m =
      SetRGB channel ix r g b
        (mkMachine (stick m) (log m) (rand_src m) (S (rand_pos m)))
    /\ byte_to_Z r = x / 2 ^ 24
    /\ byte_to_Z g = (x / 2 ^ 16) mod 256
    /\ byte_to_Z b = (x / 2 ^ 8) mod 256
    /\ byte_to_Z r * 2 ^ 24 + byte_to_Z g * 2 ^ 16 + byte_to_Z b * 2 ^ 8
       + x mod 256 = x
    /\ rand_pos (snd (SetRandom channel ix m)) = S (rand_pos m).
Proof.
  intros x. rewrite SetRandom_run. cbv zeta. fold x.
  change (uint32 (rand_src m (rand_pos m))) with x.
  exists (byte_of_Z (Z.shiftr x 24)), (byte_of_Z (Z.shiftr x 16)),
    (byte_of_Z (Z.shiftr x 8)).
  rewrite !byte_to_of_Z, !Z.shiftr_div_pow2 by lia.
  assert (Hx : 0 <= x < 2 ^ 32) by (apply Z.mod_pos_bound; lia).
  change (2 ^ 32) with 4294967296 in Hx.
  change (2 ^ 24) with 16777216. change (2 ^ 16) with 65536.
  change (2 ^ 8) with 256.
  assert (Hr : (x / 16777216) mod 256 = x / 16777216).
  { apply Z.mod_small. split; [apply Z.div_pos; lia|].
    apply Z.div_lt_upper_bound; lia. }
  rewrite Hr. split; [reflexivity|]. split; [reflexivity|].
  split; [reflexivity|]. split; [reflexivity|]. split.
  - clear Hr. Z.div_mod_to_equations. lia.
  - rewrite SetRGB_run. reflexivity.
Qed.

(** ** [GetLEDCount] *)

Lemma second_byte_of_fill (written : list byte) :
  nth 1 (fill [x00; x00] written) x00 = nth 1 written x00.
Proof. destruct written as [|a [|b written]]; reflexivity. Qed.

(** X9: [GetLEDCount] never panics, and on a well-formed stick its result lies
    between -1 and 255.  When it queries the device and the transfer
    succeeds, the result is the second byte the device stored (0 when it
    stored fewer than two); the first byte is not looked at.  A result that
    is not negative is what the struct holds afterwards. *)
Theorem GetLEDCount_result (m : Machine) :
  stick_ok (stick m) ->
  exists n,
    fst (GetLEDCount m) = Returns n
    /\ -1 <= n <= 255
    /\ (ledCount (stick m) = 0 -> 0 <= n ->
        n = byte_to_Z
              (nth 1 (resp_written
                        (answer m (mkTransfer 0xA0 0x01 0x81 0x00
                                     [x00; x00]))) x00))
    /\ (0 <= n -> ledCount (stick (snd (GetLEDCount m))) = n).
Proof.
  intros Hok. unfold stick_ok in Hok.
  change (mkTransfer 0xA0 0x01 0x81 0x00 [x00; x00]) with count_transfer.
  destruct (Z.eq_dec (ledCount (stick m)) 0) as [E|E].
  - rewrite (GetLEDCount_query m E).
    pose proof (read_count_range m) as Hr.
    destruct (is_error _ || _); cbn [fst snd].
    + exists (-1). split; [reflexivity|]. split; [lia|]. split; lia.
    + exists (read_count m). split; [reflexivity|]. split; [lia|].
      split; [|reflexivity].
      intros _ _. unfold read_count. now rewrite second_byte_of_fill.
  - rewrite (GetLEDCount_cached m E). cbn [fst snd].
    exists (ledCount (stick m)). split; [reflexivity|]. split; [lia|].
    split; [intros H; now elim E | reflexivity].
Qed.

Lemma GetLEDCount_result_witness :
  exists n,
    fst (GetLEDCount five_led_machine) = Returns n
    /\ -1 <= n <= 255
    /\ ledCount (stick (snd (GetLEDCount five_led_machine))) = 5.
Proof.
  assert (Hok : stick_ok (stick five_led_machine)) by (split; discriminate).
  destruct (GetLEDCount_result five_led_machine Hok)
    as (n & Hn & Hr & Hb & Hc).
  exists n. split; [exact Hn|]. split; [exact Hr|].
  assert (H5 : n = 5) by (apply Hb; [reflexivity|]; vm_compute in Hn;
                          injection Hn as <-; discriminate).
  rewrite <- H5. apply Hc. rewrite H5. discriminate.
Defined.

(** ** [GetName] and [GetInfo] *)

(** X10: [GetName] and [GetInfo] never panic, and their result is empty exactly
    when the transfer reported an error: a successful read is never empty
    (it has 34 bytes), so the empty string always means failure. *)
Theorem GetName_GetInfo_empty_iff_error (m : Machine) :
  (exists s,
     fst (GetName m) = Returns s
     /\ (length s = 0%nat \/ length s = 34%nat)
     /\ (s = [] <->
         resp_err (answer m (mkTransfer 0xA0 0x01 0x02 0x00 (repeat x00 33)))
         <> None))
  /\ (exists s,
        fst (GetInfo m) = Returns s
        /\ (length s = 0%nat \/ length s = 34%nat)
        /\ (s = [] <->
            resp_err (answer m (mkTransfer 0xA0 0x01 0x03 0x00
                                  (repeat x00 33)))
            <> None)).
Proof.
  split.
  - rewrite GetName_run. unfold name_transfer. cbn [fst].
    destruct (resp_err _) as [e|]; cbn [is_error]; eexists;
      (split; [reflexivity|]).
    + split; [now left|]. split; [discriminate | reflexivity].
    + split; [right; rewrite length_app, fill_length; reflexivity|].
      split; [|intros H; now elim H].
      intros H. apply (f_equal (@length byte)) in H.
      rewrite length_app, fill_length in H. discriminate H.
  - rewrite GetInfo_run. unfold info_transfer. cbn [fst].
    destruct (resp_err _) as [e|]; cbn [is_error]; eexists;
      (split; [reflexivity|]).
    + split; [now left|]. split; [discriminate | reflexivity].
    + split; [right; rewrite length_app, fill_length; reflexivity|].
      split; [|intros H; now elim H].
      intros H. apply (f_equal (@length byte)) in H.
      rewrite length_app, fill_length in H. discriminate H.
Qed.

(** ** The buckets *)

(** X11: The bucket [getReportID] selects is one of the four (8, 16, 32 or
    64 LEDs): the smallest that holds the byte count, and the 64-LED bucket
    for every count above 192, which none holds.  Its report id is
    between 6 and 9 and the capacity is [2^(id - 3)] LEDs.  A larger count
    never gets a smaller bucket. *)
Theorem getReportID_smallest_fit (c : Z) :
  In (snd (getReportID c)) [8; 16; 32; 64]
  /\ 6 <= fst (getReportID c) <= 9
  /\ snd (getReportID c) = 2 ^ (fst (getReportID c) - 3)
  /\ (c <= 64 * 3 -> c <= snd (getReportID c) * 3)
  /\ (forall k, In k [8; 16; 32; 64] -> c <= k * 3 ->
        snd (getReportID c) <= k)
  /\ (64 * 3 < c -> getReportID c = (9, 64))
  /\ (forall c', c <= c' ->
        fst (getReportID c) <= fst (getReportID c')
        /\ snd (getReportID c) <= snd (getReportID c')).
Proof.
  destruct (getReportID_cases c) as [[H E]|[[H E]|[[H E]|[H E]]]];
    rewrite E; cbn [fst snd];
    (split; [cbn [In]; tauto|]); (split; [lia|]);
    (split; [reflexivity|]); (split; [lia|]);
    (split;
     [intros k Hk Hc; cbn [In] in Hk;
      destruct Hk as [<-|[<-|[<-|[<-|[]]]]]; lia|]);
    (split; [intros Hc; (reflexivity || lia)|]);
    intros c' Hc';
    destruct (getReportID_cases c') as [[H' E']|[[H' E']|[[H' E']|[H' E']]]];
    rewrite E'; cbn [fst snd]; lia.
Qed.

(** ** [SetLEDData] and [SetAllRGB] *)

Lemma firstn_triples (r g b : byte) (k n : nat) :
  firstn (3 * k) (triples r g b n) = triples r g b (Nat.min k n).
Proof.
  revert n. induction k as [|k IH]; intros n.
  - reflexivity.
  - destruct n as [|n]; [reflexivity|].
    replace (3 * S k)%nat with (S (S (S (3 * k)))) by lia.
    change (triples r g b (S n)) with (r :: g :: b :: triples r g b n).
    cbn [firstn Nat.min]. rewrite IH. reflexivity.
Qed.

Lemma led_part_length (channel : byte) (leds : list byte) (cap : nat) :
  length (skipn 2 (led_report channel leds cap)) = cap.
Proof.
  unfold led_report. cbn [app skipn].
  rewrite length_app, length_firstn, repeat_length. lia.
Qed.

Lemma led_report_resend (channel : byte) (leds : list byte) (cap : nat) :
  led_report channel (skipn 2 (led_report channel leds cap)) cap =
    led_report channel leds cap.
Proof.
  pose proof (led_part_length channel leds cap) as Hl.
  unfold led_report at 1. rewrite firstn_all2 by lia.
  rewrite Hl, Nat.sub_diag. cbn [repeat]. now rewrite app_nil_r.
Qed.

(** X12: Padding is idempotent: sending the LED part of a frame that
    [SetLEDData] built (the frame without its two header bytes) issues the
    very same transfer again. *)
Theorem SetLEDData_resend_frame (channel : byte) (leds : list byte)
  (m : Machine) (t : Transfer) :
  log (snd (SetLEDData channel leds m)) = log m ++ [t] ->
  SetLEDData channel (skipn 2 (data t)) m = SetLEDData channel leds m.
Proof.
  rewrite SetLEDData_run. cbn [snd logged log]. intros H.
  apply app_inv_head in H. injection H as <-.
  rewrite !SetLEDData_run.
  assert (E : led_transfer channel
                (skipn 2 (data (led_transfer channel leds)))
              = led_transfer channel leds).
  { unfold led_transfer at 2 3.
    destruct (getReportID_cases (len leds)) as [[H E]|[[H E]|[[H E]|[H E]]]];
      rewrite E; cbn [data]; unfold led_transfer, len;
      rewrite led_part_length;
      match goal with
      | |- context [getReportID ?z] =>
          let v := eval vm_compute in (getReportID z) in
          change (getReportID z) with v
      end;
      cbv iota beta; rewrite led_report_resend; reflexivity. }
  now rewrite E.
Qed.

Lemma SetLEDData_resend_frame_witness :
  SetLEDData x01 ([x0a; x0b; x0c] ++ repeat x00 21) quiet_machine =
    SetLEDData x01 [x0a; x0b; x0c] quiet_machine.
Proof.
  apply (SetLEDData_resend_frame x01 [x0a; x0b; x0c] quiet_machine
           (mkTransfer 0x20 0x09 6 0x00
              ([x00; x01; x0a; x0b; x0c] ++ repeat x00 21))).
  reflexivity.
Defined.

Lemma led_transfer_triples (channel r g b : byte) (n : Z) :
  0 <= n ->
  led_transfer channel (triples r g b (Z.to_nat n)) =
    mkTransfer 0x20 0x09 (fst (getReportID (3 * n))) 0x00
      ([x00; channel]
       ++ triples r g b
            (Nat.min (Z.to_nat (snd (getReportID (3 * n)))) (Z.to_nat n))
       ++ repeat x00
            (3 * (Z.to_nat (snd (getReportID (3 * n))) - Z.to_nat n))).
Proof.
  intros Hn.
  assert (Hlen : len (triples r g b (Z.to_nat n)) = 3 * n)
    by (unfold len; rewrite triples_length; lia).
  unfold led_transfer, led_report. rewrite Hlen.
  destruct (getReportID_cases (3 * n)) as [[H F]|[[H F]|[[H F]|[H F]]]];
    rewrite F; cbn [fst snd];
    match goal with
    | |- context [Z.to_nat (?k * 3)] =>
        replace (Z.to_nat (k * 3)) with (3 * Z.to_nat k)%nat by lia
    end;
    rewrite firstn_triples, triples_length;
    rewrite <- Nat.mul_sub_distr_l; reflexivity.
Qed.

(** X13: [SetAllRGB] colours at most 64 LEDs.  With a count [n] that is not
    negative, its frame holds [min(n, maxLEDs)] copies of the triple and
    zeros for the rest of the bucket chosen for [3n] bytes; from 64 LEDs on,
    the frame is the same whatever the count: report 9 with 64 triples. *)
Theorem SetAllRGB_lights_at_most_64 (channel r g b : byte) (m m1 : Machine)
  (n : Z) :
  GetLEDCount m = (Returns n, m1) ->
  0 <= n ->
  log (snd (SetAllRGB channel r g b m)) =
    log m1 ++
    [mkTransfer 0x20 0x09 (fst (getReportID (3 * n))) 0x00
       ([x00; channel]
        ++ concat (repeat [r; g; b]
                     (Nat.min (Z.to_nat (snd (getReportID (3 * n))))
                        (Z.to_nat n)))
        ++ repeat x00
             (3 * (Z.to_nat (snd (getReportID (3 * n))) - Z.to_nat n)))]
  /\ (64 <= n ->
      log (snd (SetAllRGB channel r g b m)) =
        log m1 ++
        [mkTransfer 0x20 0x09 9 0x00
           ([x00; channel] ++ concat (repeat [r; g; b] 64))]).
Proof.
  intros E Hn. rewrite (SetAllRGB_run channel r g b m n m1 E).
  replace (n <? 0) with false by (symmetry; lia).
  rewrite SetLEDData_run. cbn [snd logged log].
  assert (Ht := led_transfer_triples channel r g b n Hn).
  unfold triples in Ht at 2.
  rewrite Ht. split; [reflexivity|].
  intros H64.
  destruct (getReportID_cases (3 * n)) as [[H F]|[[H F]|[[H F]|[H F]]]];
    try lia.
  rewrite F. cbn [fst snd].
  replace (Nat.min (Z.to_nat 64) (Z.to_nat n)) with 64%nat by lia.
  replace (Z.to_nat 64 - Z.to_nat n)%nat with 0%nat by lia.
  cbn [Nat.mul repeat]. now rewrite app_nil_r.
Qed.

Lemma SetAllRGB_lights_at_most_64_witness :
  log (snd (SetAllRGB x00 x01 x02 x03
              (start (counting_device x64) [] no_rand))) =
    log (snd (GetLEDCount (start (counting_device x64) [] no_rand))) ++
    [mkTransfer 0x20 0x09 9 0x00
       ([x00; x00] ++ concat (repeat [x01; x02; x03] 64))].
Proof.
  assert (E : GetLEDCount (start (counting_device x64) [] no_rand) =
                (Returns 100,
                 snd (GetLEDCount (start (counting_device x64) [] no_rand))))
    by reflexivity.
  assert (H0 : 0 <= 100) by discriminate.
  assert (H64 : 64 <= 100) by discriminate.
  exact (proj2 (SetAllRGB_lights_at_most_64 x00 x01 x02 x03 _ _ 100 E H0)
           H64).
Defined.

(** ** Panics *)

(** X14: The only run-time panic of the package is the slice expression of
    [GetLEDData]: on a well-formed stick a call panics exactly when it is
    [GetLEDData(count)] with [count*3], as [int] holds it, negative or above
    192.  Every other call returns, whatever the device answers. *)
Theorem only_GetLEDData_panics (bits : Z) (op : Op) (m : Machine) :
  bits = 32 \/ bits = 64 ->
  stick_ok (stick m) ->
  (op_panics bits op m = true <->
   exists count,
     op = CallGetLEDData count
     /\ (int_mul bits count 3 < 0 \/ 192 < int_mul bits count 3)).
Proof.
  intros Hb _.
  destruct op as [ | | |name|info|ch ix r g b|ch ix|ch r g b|count|ch leds];
    cbn [op_panics].
  - destruct (GetLEDCount_frame m) as (n & m1 & new & E & _). rewrite E.
    cbn. split; [intros H; discriminate H | intros (c & H & _); discriminate H].
  - rewrite GetName_run. cbn.
    split; [intros H; discriminate H | intros (c & H & _); discriminate H].
  - rewrite GetInfo_run. cbn.
    split; [intros H; discriminate H | intros (c & H & _); discriminate H].
  - rewrite SetName_run. cbn.
    split; [intros H; discriminate H | intros (c & H & _); discriminate H].
  - rewrite SetInfo_run. cbn.
    split; [intros H; discriminate H | intros (c & H & _); discriminate H].
  - rewrite SetRGB_run. cbn.
    split; [intros H; discriminate H | intros (c & H & _); discriminate H].
  - rewrite SetRandom_run. cbv zeta. rewrite SetRGB_run. cbn.
    split; [intros H; discriminate H | intros (c & H & _); discriminate H].
  - destruct (GetLEDCount_frame m) as (n & m1 & new & E & _).
    rewrite (SetAllRGB_run ch r g b m n m1 E).
    destruct (n <? 0); [rewrite SetRGB_run | rewrite SetLEDData_run]; cbn;
      (split; [intros H; discriminate H | intros (c & H & _); discriminate H]).
  - destruct (Z_le_dec 0 (int_mul bits count 3)) as [H0|H0];
      [destruct (Z_le_dec (int_mul bits count 3) 192) as [H1|H1]|].
    + rewrite (GetLEDData_in_range bits count m Hb (conj H0 H1)). cbn.
      split; [intros H; discriminate H|].
      intros (c & H & Hr). injection H as <-. lia.
    + rewrite (GetLEDData_out_of_range bits count m Hb) by lia. cbn.
      split; [|reflexivity]. intros _. exists count.
      split; [reflexivity | lia].
    + rewrite (GetLEDData_out_of_range bits count m Hb) by lia. cbn.
      split; [|reflexivity]. intros _. exists count.
      split; [reflexivity | lia].
  - rewrite SetLEDData_run. cbn.
    split; [intros H; discriminate H | intros (c & H & _); discriminate H].
Qed.

Lemma only_GetLEDData_panics_witness :
  op_panics 64 (CallGetLEDData 65) quiet_machine = true
  /\ op_panics 64 (CallSetAllRGB x00 x01 x02 x03) quiet_machine <> true.
Proof.
  assert (Hb : 64 = 32 \/ 64 = 64) by (right; reflexivity).
  assert (Hok : stick_ok (stick quiet_machine)) by (split; discriminate).
  split.
  - apply (only_GetLEDData_panics 64 (CallGetLEDData 65) quiet_machine Hb Hok).
    exists 65. split; [reflexivity|]. right. reflexivity.
  - intros H.
    apply (only_GetLEDData_panics 64 (CallSetAllRGB x00 x01 x02 x03)
             quiet_machine Hb Hok) in H.
    destruct H as (c & H & _). discriminate H.
Defined.

(** ** The count query of [SetAllRGB] *)







(** ** Writing LED data and reading it back *)

Lemma fill_whole (n : nat) (frame : list byte) :
  length frame = n -> fill (repeat x00 n) frame = frame.
Proof.
  intros H. unfold fill. rewrite repeat_length, <- H, firstn_all.
  rewrite skipn_all2 by (rewrite repeat_length; lia). apply app_nil_r.
Qed.

(** X17: [SetLEDData] and [GetLEDData] agree on the frame: when the device
    answers the read with the frame that was just written, [GetLEDData(n)]
    returns exactly the [3n] bytes that were passed to [SetLEDData], for
    every [n] up to 64. *)
Theorem LED_data_round_trip (bits : Z) (channel : byte) (leds : list byte)
  (n : Z) (m : Machine) (t : Transfer) :
  bits = 32 \/ bits = 64 ->
  0 <= n <= 64 ->
  len leds = 3 * n ->
  log (snd (SetLEDData channel leds m)) = log m ++ [t] ->
  resp_written
    (answer (snd (SetLEDData channel leds m))
       (mkTransfer 0xA0 0x01 (fst (getReportID (3 * n))) 0x00
          (repeat x00 (Z.to_nat (2 + snd (getReportID (3 * n)) * 3)))))
  = data t ->
  exists err,
    fst (GetLEDData bits n (snd (SetLEDData channel leds m)))
    = Returns (leds, err).
Proof.
  intros Hb Hn Hlen Hlog Hecho.
  rewrite SetLEDData_run in *. cbn [snd logged log] in Hlog.
  apply app_inv_head in Hlog. injection Hlog as <-.
  cbn [snd] in *. set (m1 := logged m (led_transfer channel leds)) in *.
  assert (Hc3 : int_mul bits n 3 = 3 * n).
  { rewrite (int_mul_3_exact bits n Hb); [lia|].
    destruct Hb as [-> | ->].
    - change (2 ^ (32 - 1)) with 2147483648. lia.
    - change (2 ^ (64 - 1)) with 9223372036854775808. lia. }
  assert (Hr : 0 <= int_mul bits n 3 <= 192) by lia.
  rewrite (GetLEDData_in_range bits n m1 Hb Hr). cbn [fst].
  eexists. f_equal. f_equal. rewrite Hc3.
  assert (Hbuf : data_buffer m1 (3 * n) = data (led_transfer channel leds)).
  { unfold data_buffer.
    assert (Ht : data_transfer (3 * n) =
                 mkTransfer 0xA0 0x01 (fst (getReportID (3 * n))) 0x00
                   (repeat x00
                      (Z.to_nat (2 + snd (getReportID (3 * n)) * 3))))
      by (unfold data_transfer; now destruct (getReportID (3 * n))).
    rewrite Ht, Hecho. cbn [data]. apply fill_whole.
    unfold led_transfer. rewrite Hlen.
    destruct (getReportID (3 * n)) as [rid mx] eqn:E. cbn [data snd].
    rewrite led_report_length.
    pose proof (getReportID_cases (3 * n)) as Hcases. rewrite E in Hcases.
    destruct Hcases as [[_ F]|[[_ F]|[[_ F]|[_ F]]]];
      injection F as -> ->; reflexivity. }
  rewrite Hbuf. unfold led_transfer. rewrite Hlen.
  pose proof (getReportID_capacity (3 * n)) as Hcap.
  destruct (getReportID (3 * n)) as [rid mx]. cbn [data snd] in *.
  unfold led_report. cbn [app skipn]. unfold len in Hlen.
  rewrite (firstn_all2 leds) by lia.
  replace (Z.to_nat (3 * n)) with (length leds) by lia.
  rewrite firstn_app, firstn_all, Nat.sub_diag. cbn [firstn].
  now rewrite app_nil_r.
Qed.

Lemma LED_data_round_trip_witness :
  exists err,
    fst (GetLEDData 64 2
           (snd (SetLEDData x00 [x01; x02; x03; x04; x05; x06]
                   echo_machine)))
    = Returns ([x01; x02; x03; x04; x05; x06], err).
Proof.
  assert (Hb : 64 = 32 \/ 64 = 64) by (right; reflexivity).
  assert (Hn : 0 <= 2 <= 64) by (split; discriminate).
  apply (LED_data_round_trip 64 x00 [x01; x02; x03; x04; x05; x06] 2
           echo_machine
           (mkTransfer 0x20 0x09 6 0x00
              ([x00; x00; x01; x02; x03; x04; x05; x06] ++ repeat x00 18))
           Hb Hn); reflexivity.
Defined.

(** ** Sticks as [FindAll] hands them out *)

Lemma FindAll_stick_of (ctx : Context) (stk : BlinkStick) :
  In stk (fst (fst (FindAll ctx))) -> exists usbdev, stk = stick_of usbdev.
Proof.
  unfold FindAll. destruct (ctx filterBlinkStick) as [devices [e|]];
    cbn [is_error fst]; [intros []|].
  rewrite FindAll_loop. cbn [fst app]. intros H.
  apply in_map_iff in H. destruct H as (d & <- & _). now exists d.
Qed.

(** X3: A stick from [FindAll] has no cached count and is not inverted, and no
    call changes that it is not inverted: whatever was called on it before,
    [SetRGB] puts the colour on the wire as it was given, and the cached
    count is a byte. *)
Theorem FindAll_sticks_send_plain_colours (ctx : Context) (stk : BlinkStick)
  (bits : Z) (rnd : nat -> Z) (ops : list Op) (channel ix r g b : byte) :
  In stk (fst (fst (FindAll ctx))) ->
  ledCount stk = 0
  /\ Inverse stk = false
  /\ stick_ok (stick (run_ops bits ops (mkMachine stk [] rnd 0)))
  /\ log (snd (SetRGB channel ix r g b
                 (run_ops bits ops (mkMachine stk [] rnd 0)))) =
       log (run_ops bits ops (mkMachine stk [] rnd 0))
       ++ [mkTransfer 0x20 0x09 0x01 0x00 [x00; r; g; b]].
Proof.
  intros Hin. destruct (FindAll_stick_of ctx stk Hin) as [d ->].
  split; [reflexivity|]. split; [reflexivity|].
  destruct (run_ops_frame bits ops (mkMachine (stick_of d) [] rnd 0))
    as (new & _ & _ & _ & Hi & _ & K).
  split; [apply K; unfold stick_ok; cbn; lia|].
  rewrite SetRGB_run. unfold wire_colour. rewrite Hi. reflexivity.
Qed.

Lemma FindAll_sticks_send_plain_colours_witness :
  log (snd (SetRGB x00 x00 x0a x0b x0c
              (run_ops 64 [CallSetAllRGB x00 xff xff xff; CallGetName]
                 (mkMachine (mkBlinkStick (counting_device x08) []
                               false false 0) [] no_rand 0)))) =
    log (run_ops 64 [CallSetAllRGB x00 xff xff xff; CallGetName]
           (mkMachine (mkBlinkStick (counting_device x08) [] false false 0)
              [] no_rand 0))
    ++ [mkTransfer 0x20 0x09 0x01 0x00 [x00; x0a; x0b; x0c]].
Proof.
  assert (Hin : In (mkBlinkStick (counting_device x08) [] false false 0)
                  (fst (fst (FindAll (bus_context sample_bus)))))
    by (left; reflexivity).
  exact (proj2 (proj2 (proj2
           (FindAll_sticks_send_plain_colours (bus_context sample_bus) _ 64
              no_rand [CallSetAllRGB x00 xff xff xff; CallGetName]
              x00 x00 x0a x0b x0c Hin)))).
Defined.

(** ** The test file *)

(** X18: One round of [ExampleBlinkStick] on a fresh, not inverted stick issues
    exactly two transfers: the count query, then white for the stick.  With a
    count below 1 (the query failed, or the device said 0) that is the
    single-LED [SetRGB]; otherwise it is the frame of [SetAllRGB], which
    uses the count just cached and does not query again.  The round panics
    exactly when the second transfer reports an error. *)
Theorem ExampleBlinkStick_body_run (m : Machine) :
  ledCount (stick m) = 0 ->
  Inverse (stick m) = false ->
  exists n t,
    fst (GetLEDCount m) = Returns n
    /\ log (snd (ExampleBlinkStick_body m)) =
         log m ++ [mkTransfer 0xA0 0x01 0x81 0x00 [x00; x00]; t]
    /\ (n < 1 -> t = mkTransfer 0x20 0x09 0x01 0x00 [x00; xff; xff; xff])
    /\ (1 <= n ->
        t = mkTransfer 0x20 0x09 (fst (getReportID (3 * n))) 0x00
              ([x00; x00]
               ++ concat (repeat [xff; xff; xff]
                            (Nat.min (Z.to_nat (snd (getReportID (3 * n))))
                               (Z.to_nat n)))
               ++ repeat x00
                    (3 * (Z.to_nat (snd (getReportID (3 * n)))
                          - Z.to_nat n))))
    /\ (fst (ExampleBlinkStick_body m) = Panics <->
        resp_err (device (stick m)
                    (log m ++ [mkTransfer 0xA0 0x01 0x81 0x00 [x00; x00]]) t)
        <> None).
Proof.
  intros H0 Hi.
  change (mkTransfer 0xA0 0x01 0x81 0x00 [x00; x00]) with count_transfer.
  assert (Hp : forall (o : option error) (m' : Machine),
            fst ((if is_error o then @panic unit else ret tt) m') = Panics
            <-> o <> None).
  { intros [e|] m'; cbn; split; try discriminate; try reflexivity.
    intros H. now elim H. }
  assert (Hl : forall (o : option error) (m' : Machine),
            snd ((if is_error o then @panic unit else ret tt) m') = m')
    by (intros [e|] m'; reflexivity).
  rewrite (GetLEDCount_query m H0).
  destruct (is_error (resp_err (answer m count_transfer))
            || (resp_len (answer m count_transfer) <? 2)) eqn:Ef.
  - (* the query failed *)
    assert (Hrun : ExampleBlinkStick_body m =
              (if is_error
                    (resp_err (answer (logged m count_transfer)
                                 (rgb_transfer xff xff xff)))
               then @panic unit else ret tt)
                (logged (logged m count_transfer)
                   (rgb_transfer xff xff xff))).
    { unfold ExampleBlinkStick_body. unfold bind at 1.
      rewrite (GetLEDCount_query m H0), Ef. cbn [Z.ltb Z.compare].
      unfold bind at 1. rewrite SetRGB_run. unfold wire_colour.
      cbn [logged stick]. rewrite Hi. reflexivity. }
    exists (-1), (rgb_transfer xff xff xff). rewrite Hrun, Hl.
    split; [reflexivity|].
    split; [cbn; now rewrite <- app_assoc|].
    split; [reflexivity|]. split; [lia|]. exact (Hp _ _).
  - (* the device answered *)
    pose proof (read_count_range m) as Hr.
    set (n := read_count m) in *.
    set (m1 := with_stick (logged m count_transfer)
                 (set_ledCount (stick m) n)).
    assert (E : GetLEDCount m = (Returns n, m1))
      by (rewrite (GetLEDCount_query m H0), Ef; reflexivity).
    exists n. cbn [fst].
    destruct (n <? 1) eqn:En.
    + assert (Hrun : ExampleBlinkStick_body m =
                (if is_error
                      (resp_err (answer m1 (rgb_transfer xff xff xff)))
                 then @panic unit else ret tt)
                  (logged m1 (rgb_transfer xff xff xff))).
      { unfold ExampleBlinkStick_body. unfold bind at 1. rewrite E, En.
        unfold bind at 1. rewrite SetRGB_run. unfold wire_colour.
        replace (Inverse (stick m1)) with false by (now subst m1).
        reflexivity. }
      exists (rgb_transfer xff xff xff). rewrite Hrun, Hl.
      split; [reflexivity|].
      split; [subst m1; cbn; now rewrite <- app_assoc|].
      split; [reflexivity|]. split; [lia|]. exact (Hp _ _).
    + assert (Hc : ledCount (stick m1) <> 0) by (subst m1; cbn; lia).
      assert (Hn : 0 <= n) by lia.
      assert (Hrun : ExampleBlinkStick_body m =
                (if is_error
                      (resp_err
                         (answer m1
                            (led_transfer x00
                               (triples xff xff xff (Z.to_nat n)))))
                 then @panic unit else ret tt)
                  (logged m1
                     (led_transfer x00
                        (triples xff xff xff (Z.to_nat n))))).
      { unfold ExampleBlinkStick_body. unfold bind at 1. rewrite E, En.
        unfold bind at 1.
        rewrite (SetAllRGB_run x00 xff xff xff m1 _ m1
                   (GetLEDCount_cached m1 Hc)).
        replace (ledCount (stick m1)) with n by (now subst m1).
        replace (n <? 0) with false by (symmetry; lia).
        rewrite SetLEDData_run. reflexivity. }
      exists (led_transfer x00 (triples xff xff xff (Z.to_nat n))).
      rewrite Hrun, Hl.
      split; [reflexivity|].
      split; [subst m1; cbn; now rewrite <- app_assoc|].
      split; [lia|]. split.
      { intros _. apply (led_transfer_triples x00 xff xff xff n Hn). }
      exact (Hp _ _).
Qed.

Lemma ExampleBlinkStick_body_run_witness :
  exists n t,
    fst (GetLEDCount five_led_machine) = Returns n
    /\ log (snd (ExampleBlinkStick_body five_led_machine)) =
         log five_led_machine
         ++ [mkTransfer 0xA0 0x01 0x81 0x00 [x00; x00]; t].
Proof.
  destruct (ExampleBlinkStick_body_run five_led_machine eq_refl eq_refl)
    as (n & t & Hn & Hl & _).
  exists n, t. split; [exact Hn | exact Hl].
Defined.

Lemma failed_loop (chunks : list byte) (failed : bool) :
  fold_left
    (fun failed chunk => if byte_to_Z chunk <? 252 then true else failed)
    chunks failed =
  failed || existsb (fun chunk => byte_to_Z chunk <? 252) chunks.
Proof.
  revert failed. induction chunks as [|c chunks IH]; intros failed.
  - cbn. now rewrite orb_false_r.
  - cbn [fold_left existsb]. rewrite IH.
    destruct (byte_to_Z c <? 252), failed; reflexivity.
Qed.

(** X19: One round of [TestSetRGB] writes white with report 1 and reads report 6
    back.  It panics when the write reports an error.  Otherwise it calls
    [t.Fail()] exactly when one of the three bytes after the two-byte header
    of what the device stored is below 252; an error reported by the read
    does not enter the verdict. *)
Theorem TestSetRGB_body_verdict (bits : Z) (m : Machine) :
  bits = 32 \/ bits = 64 ->
  (fst (SetRGB x00 x00 xff xff xff m) <> Returns None ->
   fst (TestSetRGB_body bits m) = Panics)
  /\ (fst (SetRGB x00 x00 xff xff xff m) = Returns None ->
      fst (TestSetRGB_body bits m) =
        Returns
          (existsb (fun chunk => byte_to_Z chunk <? 252)
             (firstn 3
                (skipn 2
                   (fill (repeat x00 26)
                      (resp_written
                         (answer (snd (SetRGB x00 x00 xff xff xff m))
                            (mkTransfer 0xA0 0x01 6 0x00
                               (repeat x00 26))))))))
      /\ log (snd (TestSetRGB_body bits m)) =
           log (snd (SetRGB x00 x00 xff xff xff m))
           ++ [mkTransfer 0xA0 0x01 6 0x00 (repeat x00 26)]).
Proof.
  intros Hb.
  assert (Hc3 : int_mul bits 1 3 = 3).
  { rewrite (int_mul_3_exact bits 1 Hb); [reflexivity|].
    destruct Hb as [-> | ->];
      (split; [vm_compute; discriminate | reflexivity]). }
  assert (Hr : 0 <= int_mul bits 1 3 <= 192)
    by (rewrite Hc3; split; discriminate).
  unfold TestSetRGB_body. unfold bind at 1 3 5.
  rewrite SetRGB_run. cbv zeta. cbn [fst snd].
  destruct (resp_err (answer m _)) as [e|]; cbn [is_error].
  - split; [reflexivity|]. intros H. discriminate H.
  - split; [intros H; now elim H|]. intros _.
    unfold bind.
    rewrite (GetLEDData_in_range bits 1 _ Hb Hr). rewrite Hc3.
    cbn [fst snd ret]. rewrite failed_loop. cbn [orb].
    split; reflexivity.
Qed.

Lemma TestSetRGB_body_verdict_witness :
  fst (TestSetRGB_body 64 failing_machine) = Panics
  /\ fst (TestSetRGB_body 64 quiet_machine) = Returns true.
Proof.
  assert (Hb : 64 = 32 \/ 64 = 64) by (right; reflexivity).
  split.
  - apply (TestSetRGB_body_verdict 64 failing_machine Hb). discriminate.
  - destruct (TestSetRGB_body_verdict 64 quiet_machine Hb) as [_ H].
    destruct (H eq_refl) as [Hv _]. exact Hv.
Defined.
